(** * The Active Vision Dataset adapter ([data_loading/active_vision_dataset.py])

    A shallow embedding of the [AVD] class: construction ([__init__]),
    the integrity check ([_check_integrity]), the length ([__len__]) and
    item access ([__getitem__]), over an explicit model of the
    collaborators the class calls: the filesystem ([os.path], [os.listdir]),
    the image decoder ([PIL.Image.open] followed by [np.asarray]) and the
    JSON parser ([json.load]).

    Every call that reaches a collaborator is recorded in a log, so that
    the order of the calls and the absence of calls can be stated. *)

From Stdlib Require Import String Ascii List ZArith Lia Bool Arith.
From Stdlib Require Import Permutation Sorted Orders Mergesort RelationClasses.
Import ListNotations.

Local Open Scope string_scope.
Local Open Scope list_scope.

(** ** Exceptions and results *)

(** The exceptions the modelled code can raise. [RuntimeError] is raised by
    [__init__] itself; [IndexError] and [KeyError] come from subscripting;
    the others come from the collaborators. *)
Inductive exn : Type :=
| RuntimeError (msg : string)
| IndexError
| KeyError (key : string)
| FileNotFoundError (path : string)
| NotADirectoryError (path : string)
| IsADirectoryError (path : string)
| UnidentifiedImageError (path : string)
| JSONDecodeError (path : string)
| UserError (msg : string).

Inductive result (A : Type) : Type :=
| Ok (a : A)
| Raise (e : exn).
Arguments Ok {A} a.
Arguments Raise {A} e.

(** ** The collaborators' log and the monad of the methods *)

(** One entry per call that leaves the class. [Apply] entries are free for
    the caller-supplied transforms to emit. *)
Inductive event : Type :=
| Isdir (path : string)
| Isfile (path : string)
| Listdir (path : string)
| ImageOpen (path : string)
| JsonLoad (path : string)
| Apply (tag : string).

(** A computation yields a value or raises, and leaves the log of what it
    called up to that point. *)
Definition IO (A : Type) : Type := (result A * list event)%type.

Definition ret {A} (a : A) : IO A := (Ok a, []).
Definition raise {A} (e : exn) : IO A := (Raise e, []).
Definition tell (ev : event) : IO unit := (Ok tt, [ev]).
Definition lift {A} (r : result A) : IO A := (r, []).

Definition bind {A B} (m : IO A) (k : A -> IO B) : IO B :=
  match m with
  | (Ok a, l1) => let (r, l2) := k a in (r, l1 ++ l2)
  | (Raise e, l1) => (Raise e, l1)
  end.

Declare Scope io_scope.
Delimit Scope io_scope with io.
Notation "x <- m ;; k" := (bind m (fun x => k))
  (at level 61, m at next level, right associativity) : io_scope.
Notation "' p <- m ;; k" := (bind m (fun x => match x with p => k end))
  (at level 61, p pattern, m at next level, right associativity) : io_scope.
Local Open Scope io_scope.

Definition value {A} (m : IO A) : result A := fst m.
Definition log {A} (m : IO A) : list event := snd m.

(** ** Python subscripting *)

(** [l[i]] on a list: a negative index counts from the end, and an index
    outside [-len, len) raises [IndexError]. *)
Definition list_getitem {A} (l : list A) (i : Z) : result A :=
  let n := Z.of_nat (List.length l) in
  let j := if (i <? 0)%Z then (i + n)%Z else i in
  if ((j <? 0) || (n <=? j))%Z then Raise IndexError
  else match nth_error l (Z.to_nat j) with
       | Some a => Ok a
       | None => Raise IndexError
       end.

(** [s[i]] on a string, for the non-negative constant indices the class uses. *)
Definition str_getitem (s : string) (i : nat) : result ascii :=
  match String.get i s with
  | Some c => Ok c
  | None => Raise IndexError
  end.

(** [s[lo:hi]] on a string, for constant bounds [0 <= lo <= hi]: slicing
    never raises, it clamps. *)
Definition str_slice (s : string) (lo hi : nat) : string :=
  String.substring lo (hi - lo) s.

(** [d[k]] on a dict with string keys: [KeyError] when the key is absent. *)
Fixpoint dict_find {V} (d : list (string * V)) (k : string) : option V :=
  match d with
  | [] => None
  | (k', v) :: d' => if String.eqb k' k then Some v else dict_find d' k
  end.

Definition dict_getitem {V} (d : list (string * V)) (k : string) : result V :=
  match dict_find d k with
  | Some v => Ok v
  | None => Raise (KeyError k)
  end.

(** ** Paths: [os.path.join] (posixpath) *)

Definition ends_with_sep (path : string) : bool :=
  match String.get (String.length path - 1) path with
  | Some c => Ascii.eqb c "/"
  | None => false
  end.

(** One step of [join]: an absolute component replaces what came before,
    otherwise it is appended, with a separator unless the path is empty
    or already ends with one. *)
Definition join_step (path b : string) : string :=
  if String.prefix "/" b then b
  else if (String.eqb path "" || ends_with_sep path)%bool then (path ++ b)%string
  else (path ++ "/" ++ b)%string.

Definition path_join (a : string) (p : list string) : string :=
  fold_left join_step p a.

(** ** Module constants *)

Definition images_dir : string := "jpg_rgb".
Definition annotation_filename : string := "annotations.json".

(** ** Images: three-dimensional pixel arrays *)

(** A [height x width x channel] array as [np.asarray(Image.open(...))]
    gives it: a shape and a pixel accessor.  Basic slicing yields a view
    on the same pixels at an offset, which the accessor of [crop] below
    reproduces. *)
Record ndarray : Type := mk_ndarray {
  rows : nat;
  cols : nat;
  chans : nat;
  px : nat -> nat -> nat -> Z
}.

Definition shape (a : ndarray) : nat * nat * nat := (rows a, cols a, chans a).

(** The adjustment Python applies to one bound of [a[lo:hi]] on an axis of
    length [n]: a negative bound is counted from the end, then the bound
    is clamped into [0, n]. *)
Definition adjust_bound (n : Z) (i : Z) : Z :=
  if (i <? 0)%Z then Z.max 0 (i + n) else Z.min i n.

(** Start and length of [a[lo:hi]] on an axis of length [n]. *)
Definition slice_extent (n : nat) (lo hi : Z) : nat * nat :=
  let start := adjust_bound (Z.of_nat n) lo in
  let stop := adjust_bound (Z.of_nat n) hi in
  (Z.to_nat start, Z.to_nat (stop - start)).

(** [img[y0:y1, x0:x1, :]] *)
Definition crop (img : ndarray) (y0 y1 x0 x1 : Z) : ndarray :=
  let (r0, h) := slice_extent (rows img) y0 y1 in
  let (c0, w) := slice_extent (cols img) x0 x1 in
  {| rows := h; cols := w; chans := chans img;
     px := fun i j k => px img (r0 + i) (c0 + j) k |}.

(** ** Annotations *)

(** A bounding box is a list of integers
    [[x_min, y_min, x_max, y_max, instance_id, ...]]. *)
Definition box : Type := list Z.

(** What [json.load] returns for an annotation file: a dict from image
    name to a record, itself a dict from field name to a list of boxes.
    A dict is an association list searched from the front. *)
Definition record : Type := list (string * list box).
Definition annotations : Type := list (string * record).

(** ** The filesystem *)

Inductive file_content : Type :=
| Jpeg (img : ndarray)
| Json (ann : annotations)
| Garbage.

Inductive node : Type :=
| Dir (entries : list string)
| File (content : file_content).

(** The filesystem answers for every path string; which strings name the
    same node is left to it. *)
Definition filesystem : Type := string -> option node.

Section Collaborators.

Variable fs : filesystem.

(** [os.path.isdir] *)
Definition isdir (path : string) : IO bool :=
  _ <- tell (Isdir path) ;;
  ret match fs path with Some (Dir _) => true | _ => false end.

(** [os.path.isfile] *)
Definition isfile (path : string) : IO bool :=
  _ <- tell (Isfile path) ;;
  ret match fs path with Some (File _) => true | _ => false end.

(** [os.listdir] *)
Definition listdir (path : string) : IO (list string) :=
  _ <- tell (Listdir path) ;;
  match fs path with
  | Some (Dir entries) => ret entries
  | Some (File _) => raise (NotADirectoryError path)
  | None => raise (FileNotFoundError path)
  end.

(** [np.asarray(Image.open(path))] *)
Definition image_open (path : string) : IO ndarray :=
  _ <- tell (ImageOpen path) ;;
  match fs path with
  | Some (File (Jpeg img)) => ret img
  | Some (File _) => raise (UnidentifiedImageError path)
  | Some (Dir _) => raise (IsADirectoryError path)
  | None => raise (FileNotFoundError path)
  end.

(** [with open(path) as f: json.load(f)] *)
Definition json_load (path : string) : IO annotations :=
  _ <- tell (JsonLoad path) ;;
  match fs path with
  | Some (File (Json ann)) => ret ann
  | Some (File _) => raise (JSONDecodeError path)
  | Some (Dir _) => raise (IsADirectoryError path)
  | None => raise (FileNotFoundError path)
  end.

End Collaborators.

(** ** The class [AVD] *)

Definition default_train_list : list string :=
  [ "Home_002_1"; "Home_003_1"; "Home_003_2"; "Home_004_1"; "Home_004_2";
    "Home_005_1"; "Home_005_2"; "Home_006_1"; "Home_014_1"; "Home_014_2";
    "Office_001_1" ].

Definition default_test_list : list string :=
  [ "Home_001_1"; "Home_001_2"; "Home_008_1" ].

(** The instance attributes. A transform is a caller-supplied function; it
    may raise and may call collaborators of its own. *)
Record AVD : Type := mk_AVD {
  root : string;
  transform : option (ndarray -> IO ndarray);
  target_transform : option (list box -> IO (list box));
  classification : bool;
  train : bool;
  scene_list : list string;
  image_names : list string
}.

(** What [__getitem__] returns: the image and its boxes, or in
    classification mode the list of crops and the list of ids. *)
Inductive item : Type :=
| Detection (img : ndarray) (target : list box)
| Crops (images : list ndarray) (ids : list Z).

(** [list.sort()] on strings: ascending in the order of [<=] on strings,
    which compares character codes from the left. *)
Module StringOrder <: TotalLeBool.
Definition t := string.
Definition leb := String.leb.
Theorem leb_total : forall a1 a2, leb a1 a2 = true \/ leb a2 a1 = true.
Proof. exact String.leb_total. Qed.
End StringOrder.

Module StringSort := Sort StringOrder.

Definition list_sort (l : list string) : list string := StringSort.sort l.

(** Lines 77-83: the effective scene list. [scene_list == None] is false
    for every list, the empty one included. *)
Definition resolve_scene_list (train : bool) (scene_list : option (list string))
  : list string :=
  match scene_list with
  | None => if train then default_train_list else default_test_list
  | Some l => l
  end.

Section Methods.

Variable fs : filesystem.

(** The condition of line 156-158; [and] evaluates its right operand
    only when the left one is true. *)
Definition scene_present (root scene_name : string) : IO bool :=
  d <- isdir fs (path_join root [scene_name]) ;;
  if d then
    i <- isdir fs (path_join root [scene_name; images_dir]) ;;
    if i then isfile fs (path_join root [scene_name; annotation_filename])
    else ret false
  else ret false.

(** [_check_integrity]: the loop returns [False] at the first scene that
    fails and [True] when it runs out of scenes. *)
Fixpoint check_integrity (root : string) (scenes : list string) : IO bool :=
  match scenes with
  | [] => ret true
  | scene_name :: rest =>
      ok <- scene_present root scene_name ;;
      if negb ok then ret false else check_integrity root rest
  end.

(** Lines 89-91: [image_names.extend(os.listdir(...))] for every scene. *)
Fixpoint list_images (root : string) (scenes : list string)
         (image_names : list string) : IO (list string) :=
  match scenes with
  | [] => ret image_names
  | scene :: rest =>
      entries <- listdir fs (path_join root [scene; images_dir]) ;;
      list_images root rest (image_names ++ entries)
  end.

(** [__init__] *)
Definition init (root : string) (train : bool)
           (transform : option (ndarray -> IO ndarray))
           (target_transform : option (list box -> IO (list box)))
           (scene_list : option (list string)) (classification : bool)
  : IO AVD :=
  let scene_list := resolve_scene_list train scene_list in
  ok <- check_integrity root scene_list ;;
  if negb ok then raise (RuntimeError "Dataset not found or corrupted.")
  else
    image_names <- list_images root scene_list [] ;;
    ret {| root := root; transform := transform;
           target_transform := target_transform;
           classification := classification; train := train;
           scene_list := scene_list;
           image_names := list_sort image_names |}.

(** [__len__] *)
Definition len (self : AVD) : nat := List.length (image_names self).

(** Lines 107-111: the scene an image name belongs to. *)
Definition scene_name_of (image_name : string) : result string :=
  match str_getitem image_name 0 with
  | Raise e => Raise e
  | Ok c0 =>
      let scene_type := if Ascii.eqb c0 "0" then "Home" else "Office" in
      match str_getitem image_name 4 with
      | Raise e => Raise e
      | Ok c4 =>
          Ok (scene_type ++ "_" ++ str_slice image_name 1 4 ++ "_"
                ++ String c4 "")%string
      end
  end.

(** Lines 103-119: look the name up, read the image and its boxes. *)
Definition read_item (self : AVD) (index : Z) : IO (ndarray * list box) :=
  image_name <- lift (list_getitem (image_names self) index) ;;
  scene_name <- lift (scene_name_of image_name) ;;
  img <- image_open fs
           (path_join (root self) [scene_name; images_dir; image_name]) ;;
  annotations <- json_load fs
           (path_join (root self) [scene_name; annotation_filename]) ;;
  rec <- lift (dict_getitem annotations image_name) ;;
  target <- lift (dict_getitem rec "bounding_boxes") ;;
  ret (img, target).

(** Lines 121-125: the transforms. *)
Definition apply_transforms (self : AVD) (img : ndarray) (target : list box)
  : IO (ndarray * list box) :=
  img <- match transform self with
         | Some f => f img
         | None => ret img
         end ;;
  target <- match target_transform self with
            | Some g => g target
            | None => ret target
            end ;;
  ret (img, target).

(** Lines 132-134: the loop over the boxes, appending to both lists. *)
Fixpoint crop_boxes (img : ndarray) (target : list box)
         (images : list ndarray) (ids : list Z)
  : result (list ndarray * list Z) :=
  match target with
  | [] => Ok (images, ids)
  | b :: rest =>
      match list_getitem b 1, list_getitem b 3,
            list_getitem b 0, list_getitem b 2 with
      | Ok y0, Ok y1, Ok x0, Ok x1 =>
          let images := images ++ [crop img y0 y1 x0 x1] in
          match list_getitem b 4 with
          | Ok id => crop_boxes img rest images (ids ++ [id])
          | Raise e => Raise e
          end
      | Raise e, _, _, _ => Raise e
      | _, Raise e, _, _ => Raise e
      | _, _, Raise e, _ => Raise e
      | _, _, _, Raise e => Raise e
      end
  end.

(** Lines 127-139: crop for classification if the flag is set, and return. *)
Definition finish_item (self : AVD) (img : ndarray) (target : list box)
  : IO item :=
  if classification self then
    '(images, ids) <- lift (crop_boxes img target [] []) ;;
    ret (Crops images ids)
  else ret (Detection img target).

(** [__getitem__] *)
Definition getitem (self : AVD) (index : Z) : IO item :=
  '(img, target) <- read_item self index ;;
  '(img, target) <- apply_transforms self img target ;;
  finish_item self img target.

End Methods.

(** ** The layout the integrity check looks for *)

(** The three conditions of the integrity check, as properties of the
    filesystem. *)
Definition dir_exists (fs : filesystem) (path : string) : Prop :=
  exists entries, fs path = Some (Dir entries).

Definition file_exists (fs : filesystem) (path : string) : Prop :=
  exists content, fs path = Some (File content).

Definition scene_intact (fs : filesystem) (root scene : string) : Prop :=
  dir_exists fs (path_join root [scene]) /\
  dir_exists fs (path_join root [scene; images_dir]) /\
  file_exists fs (path_join root [scene; annotation_filename]).

(** The calls the integrity check makes for a scene that passes it, in
    the order it makes them. *)
Definition scene_probes (root scene : string) : list event :=
  [ Isdir (path_join root [scene]);
    Isdir (path_join root [scene; images_dir]);
    Isfile (path_join root [scene; annotation_filename]) ].

(** The call that lists the images of a scene. *)
Definition scene_listing (root scene : string) : event :=
  Listdir (path_join root [scene; images_dir]).

(** The order of the index as a relation. *)
Definition leb_rel (a b : string) : Prop := is_true (String.leb a b).

(** The crop the specification writes [image[box[1]:box[3], box[0]:box[2], :]],
    and the id it writes [box[4]], for a box that has these elements. *)
Definition crop_box (img : ndarray) (b : box) : ndarray :=
  crop img (nth 1 b 0%Z) (nth 3 b 0%Z) (nth 0 b 0%Z) (nth 2 b 0%Z).

Definition box_id (b : box) : Z := nth 4 b 0%Z.

(** ** A small dataset on which the statements below are run *)

Module Sample.

Definition fs_of (l : list (string * node)) : filesystem :=
  fun path => dict_find l path.

Definition name_a : string := "000110000010101.jpg".
Definition name_b : string := "000110000020101.jpg".

Definition wide_image : ndarray :=
  {| rows := 80; cols := 64; chans := 3;
     px := fun i j k => Z.of_nat ((i + j + k) mod 256) |}.

Definition small_image : ndarray :=
  {| rows := 30; cols := 30; chans := 3;
     px := fun i j k => Z.of_nat ((i * j + k) mod 256) |}.

Definition two_boxes : list box :=
  [ [10; 20; 50; 60; 3]; [0; 0; 5; 5; 7] ]%Z.

Definition home_annotations : annotations :=
  [ (name_a, [("bounding_boxes", two_boxes)]);
    (name_b, [("bounding_boxes", two_boxes)]) ].

Definition tree (listing : list string) : list (string * node) :=
  [ ("/data/Home_001_1", Dir ["jpg_rgb"; "annotations.json"]);
    ("/data/Home_001_1/jpg_rgb", Dir listing);
    ("/data/Home_001_1/annotations.json", File (Json home_annotations));
    ("/data/Home_001_1/jpg_rgb/000110000010101.jpg", File (Jpeg wide_image));
    ("/data/Home_001_1/jpg_rgb/000110000020101.jpg", File (Jpeg small_image)) ].

Definition disk : filesystem := fs_of (tree [name_b; name_a]).
Definition disk' : filesystem := fs_of (tree [name_a; name_b]).

(** The adapter [AVD("/data", scene_list=["Home_001_1"], classification=c)]
    once constructed on [disk]. *)
Definition adapter (c : bool) : AVD :=
  {| root := "/data"; transform := None; target_transform := None;
     classification := c; train := true;
     scene_list := ["Home_001_1"]; image_names := [name_a; name_b] |}.


Definition black : ndarray :=
  {| rows := 2; cols := 2; chans := 3; px := fun _ _ _ => 0%Z |}.

(** A dataset of two office scenes whose image names differ in their
    first character within one scene. *)
Definition offices : filesystem :=
  fs_of
    [ ("/avd/Office_001_1", Dir ["jpg_rgb"; "annotations.json"]);
      ("/avd/Office_001_1/jpg_rgb", Dir ["1001100.jpg"; "2001100.jpg"]);
      ("/avd/Office_001_1/annotations.json", File (Json []));
      ("/avd/Office_002_1", Dir ["jpg_rgb"; "annotations.json"]);
      ("/avd/Office_002_1/jpg_rgb", Dir ["1002100.jpg"]);
      ("/avd/Office_002_1/annotations.json", File (Json [])) ].

Definition offices_adapter : AVD :=
  {| root := "/avd"; transform := None; target_transform := None;
     classification := false; train := true;
     scene_list := ["Office_001_1"; "Office_002_1"];
     image_names := ["1001100.jpg"; "1002100.jpg"; "2001100.jpg"] |}.

(** The sample scene with a third name in its image directory, listed in
    two orders. *)
Definition name_c : string := "000110000030101.jpg".

Definition shelf : filesystem := fs_of (tree [name_c; name_a; name_b]).
Definition shelf' : filesystem := fs_of (tree [name_b; name_c; name_a]).

Definition shelf_adapter (c : bool) : AVD :=
  {| root := "/data"; transform := None; target_transform := None;
     classification := c; train := true;
     scene_list := ["Home_001_1"]; image_names := [name_a; name_b; name_c] |}.

(** An adapter whose index holds a name of four characters, as a stray
    file in an image directory gives. *)
Definition stray_adapter : AVD :=
  {| root := "/data"; transform := None; target_transform := None;
     classification := false; train := true;
     scene_list := ["Home_001_1"]; image_names := ["a.db"; name_a] |}.

(** The sample dataset with a record that has no boxes field. *)
Definition keyless_disk : filesystem :=
  fun path =>
    if String.eqb path "/data/Home_001_1/annotations.json"
    then Some (File (Json [(name_a, [("rotate_ccw", [])])]))
    else disk path.

(** An adapter whose image transform blacks the image out and whose
    target transform raises, each leaving a mark in the log. *)
Definition marked_adapter : AVD :=
  {| root := "/data";
     transform := Some (fun _ => (Ok black, [Apply "image"]));
     target_transform :=
       Some (fun _ => (Raise (UserError "target"), [Apply "target"]));
     classification := false; train := true;
     scene_list := ["Home_001_1"]; image_names := [name_a; name_b] |}.

End Sample.

(** ** Facts about the monad *)

Lemma bind_ok {A B} (a : A) (l : list event) (k : A -> IO B) :
  bind (Ok a, l) k = (value (k a), l ++ log (k a)).
Proof. unfold bind, value, log. destruct (k a); reflexivity. Qed.

Lemma bind_raise {A B} (e : exn) (l : list event) (k : A -> IO B) :
  bind (Raise e, l) k = (Raise e, l).
Proof. reflexivity. Qed.

Lemma bind_lift_ok {A B} (a : A) (k : A -> IO B) :
  bind (lift (Ok a)) k = k a.
Proof. unfold lift. rewrite bind_ok. destruct (k a); reflexivity. Qed.

Lemma bind_ret {A B} (a : A) (k : A -> IO B) : bind (ret a) k = k a.
Proof. exact (bind_lift_ok a k). Qed.

Lemma bind_lift_raise {A B} (e : exn) (k : A -> IO B) :
  bind (lift (Raise e)) k = (Raise e, []).
Proof. reflexivity. Qed.

Lemma io_eta {A} (m : IO A) : m = (value m, log m).
Proof. destruct m; reflexivity. Qed.

Lemma log_bind_prefix {A B} (m : IO A) (k : A -> IO B) :
  exists rest, log (bind m k) = log m ++ rest.
Proof.
  destruct m as [[a|e] l].
  - rewrite bind_ok. exists (log (k a)). reflexivity.
  - exists []. simpl. now rewrite app_nil_r.
Qed.

(** ** Facts about strings *)

Lemma length_five_inv (s : string) :
  5 <= String.length s ->
  exists c0 c1 c2 c3 c4 rest,
    s = String c0 (String c1 (String c2 (String c3 (String c4 rest)))).
Proof.
  intros H.
  destruct s as [|c0 [|c1 [|c2 [|c3 [|c4 rest]]]]]; simpl in H; try lia.
  now exists c0, c1, c2, c3, c4, rest.
Qed.

Lemma scene_name_of_cons (c0 c1 c2 c3 c4 : ascii) (rest : string) :
  scene_name_of (String c0 (String c1 (String c2 (String c3 (String c4 rest)))))
  = Ok ((if Ascii.eqb c0 "0" then "Home" else "Office") ++ "_"
          ++ String c1 (String c2 (String c3 "")) ++ "_" ++ String c4 "")%string.
Proof. reflexivity. Qed.

Lemma image_open_log (fs : filesystem) (path : string) :
  log (image_open fs path) = [ImageOpen path].
Proof.
  unfold image_open. rewrite (io_eta (tell _)). cbn [value log tell fst snd].
  rewrite bind_ok. cbn [log snd app].
  destruct (fs path) as [[?|[?|?|]]|]; reflexivity.
Qed.

(** ** Scene derivation *)

(** C1. For an image name of at least five characters, item access takes
    the scene from the first five characters alone: "Home" when character
    0 is '0' and "Office" otherwise, then "_", characters 1 to 3, "_" and
    character 4.  Names that agree on their first five characters give the
    same scene, the image is opened under that scene, and the two names of
    the specification give "Home_420_0" and "Office_420_0". *)
Theorem getitem_scene_name :
  (forall name : string, 5 <= String.length name ->
     exists c0 c1 c2 c3 c4,
       String.get 0 name = Some c0 /\ String.get 1 name = Some c1 /\
       String.get 2 name = Some c2 /\ String.get 3 name = Some c3 /\
       String.get 4 name = Some c4 /\
       scene_name_of name
       = Ok ((if Ascii.eqb c0 "0" then "Home" else "Office") ++ "_"
               ++ String c1 (String c2 (String c3 "")) ++ "_"
               ++ String c4 "")%string) /\
  (forall name name' : string,
     5 <= String.length name -> 5 <= String.length name' ->
     String.substring 0 5 name = String.substring 0 5 name' ->
     scene_name_of name = scene_name_of name') /\
  (forall (fs : filesystem) (self : AVD) (index : Z) (name : string),
     list_getitem (image_names self) index = Ok name ->
     5 <= String.length name ->
     exists scene rest,
       scene_name_of name = Ok scene /\
       log (getitem fs self index)
       = ImageOpen (path_join (root self) [scene; images_dir; name]) :: rest) /\
  scene_name_of "0420012345" = Ok "Home_420_0" /\
  scene_name_of "1420012345" = Ok "Office_420_0".
Proof.
  split; [|split; [|split; [|split; reflexivity]]].
  - intros name H.
    destruct (length_five_inv name H) as (c0 & c1 & c2 & c3 & c4 & rest & ->).
    exists c0, c1, c2, c3, c4. repeat split; reflexivity.
  - intros name name' H H' E.
    destruct (length_five_inv name H) as (c0 & c1 & c2 & c3 & c4 & rest & ->).
    destruct (length_five_inv name' H') as (d0 & d1 & d2 & d3 & d4 & rest' & ->).
    simpl in E. injection E as -> -> -> -> ->. reflexivity.
  - intros fs self index name Hi H.
    destruct (length_five_inv name H) as (c0 & c1 & c2 & c3 & c4 & rest & ->).
    unfold getitem, read_item. rewrite Hi, bind_lift_ok.
    rewrite scene_name_of_cons, bind_lift_ok.
    match goal with
    | |- context [log (bind (bind (image_open fs ?p) ?k1) ?k2)] =>
        destruct (log_bind_prefix (bind (image_open fs p) k1) k2) as [r2 E2];
        destruct (log_bind_prefix (image_open fs p) k1) as [r1 E1];
        rewrite (image_open_log fs p) in E1
    end.
    eexists. exists (r1 ++ r2). split; [reflexivity|].
    rewrite E2, E1. reflexivity.
Qed.

(** The two names of the specification, run through C1. *)
Lemma getitem_scene_name_witness :
  scene_name_of "0420012345" = scene_name_of "04200abcde" /\
  exists scene rest,
    scene_name_of Sample.name_b = Ok scene /\
    log (getitem Sample.disk (Sample.adapter false) 1)
    = ImageOpen (path_join "/data" [scene; images_dir; Sample.name_b]) :: rest.
Proof.
  destruct getitem_scene_name as (_ & Hsame & Hopen & _).
  split.
  - apply Hsame; [simpl; lia | simpl; lia | reflexivity].
  - apply (Hopen Sample.disk (Sample.adapter false) 1%Z Sample.name_b);
      [reflexivity | simpl; lia].
Defined.

(** ** Construction *)

Section Construction.

Variable fs : filesystem.

Lemma isdir_spec (path : string) :
  exists b, isdir fs path = (Ok b, [Isdir path]) /\ (b = true <-> dir_exists fs path).
Proof.
  unfold isdir, dir_exists, tell. rewrite bind_ok. cbn.
  destruct (fs path) as [[es|c]|]; eexists; (split; [reflexivity|]);
    split; try discriminate; eauto; intros [? [=]].
Qed.

Lemma isfile_spec (path : string) :
  exists b, isfile fs path = (Ok b, [Isfile path]) /\ (b = true <-> file_exists fs path).
Proof.
  unfold isfile, file_exists, tell. rewrite bind_ok. cbn.
  destruct (fs path) as [[es|c]|]; eexists; (split; [reflexivity|]);
    split; try discriminate; eauto; intros [? [=]].
Qed.

(** The condition never raises, and its value says whether the scene is
    intact. *)
Lemma scene_present_spec (root scene : string) :
  exists b, value (scene_present fs root scene) = Ok b /\
            (b = true <-> scene_intact fs root scene).
Proof.
  unfold scene_present, scene_intact.
  destruct (isdir_spec (path_join root [scene])) as (b1 & -> & H1).
  destruct (isdir_spec (path_join root [scene; images_dir])) as (b2 & E2 & H2).
  destruct (isfile_spec (path_join root [scene; annotation_filename]))
    as (b3 & E3 & H3).
  rewrite bind_ok. destruct b1.
  - rewrite E2, bind_ok. destruct b2.
    + rewrite E3. exists b3. split; [reflexivity|].
      split; [intros ->; intuition | intros (_ & _ & ?); intuition].
    + exists false. split; [reflexivity|].
      split; [discriminate | intros (_ & ? & _)].
      apply H2; assumption.
  - exists false. split; [reflexivity|].
    split; [discriminate | intros (? & _)]. apply H1; assumption.
Qed.

Lemma scene_intact_dec (root scene : string) :
  scene_intact fs root scene \/ ~ scene_intact fs root scene.
Proof.
  destruct (scene_present_spec root scene) as ([|] & _ & H).
  - left. now apply H.
  - right. intros Hi. apply H in Hi. discriminate.
Qed.

Lemma check_integrity_cons (root scene : string) (rest : list string) :
  scene_intact fs root scene ->
  check_integrity fs root (scene :: rest)
  = (value (check_integrity fs root rest),
     log (scene_present fs root scene) ++ log (check_integrity fs root rest)).
Proof.
  intros Hi. cbn [check_integrity].
  destruct (scene_present_spec root scene) as (b & Hv & Hb).
  rewrite (io_eta (scene_present fs root scene)), Hv, bind_ok.
  apply Hb in Hi. subst b. reflexivity.
Qed.

Lemma check_integrity_fail (root scene : string) (rest : list string) :
  ~ scene_intact fs root scene ->
  check_integrity fs root (scene :: rest)
  = (Ok false, log (scene_present fs root scene)).
Proof.
  intros Hi. cbn [check_integrity].
  destruct (scene_present_spec root scene) as (b & Hv & Hb).
  rewrite (io_eta (scene_present fs root scene)), Hv, bind_ok.
  destruct b; [exfalso; apply Hi, Hb; reflexivity|].
  cbn. now rewrite app_nil_r.
Qed.

(** The check never raises; it answers [True] exactly when every scene is
    intact. *)
Lemma check_integrity_spec (root : string) (scenes : list string) :
  exists b, value (check_integrity fs root scenes) = Ok b /\
            (b = true <-> Forall (scene_intact fs root) scenes).
Proof.
  induction scenes as [|s rest IH].
  - exists true. split; [reflexivity|]. split; auto.
  - destruct (scene_intact_dec root s) as [Hs|Hs].
    + rewrite (check_integrity_cons _ _ _ Hs). cbn [value fst].
      destruct IH as (b & Hv & Hb). exists b. split; [exact Hv|].
      rewrite Hb. split; [now constructor | now inversion 1].
    + rewrite (check_integrity_fail _ _ _ Hs). exists false.
      split; [reflexivity|]. split; [discriminate|].
      inversion 1; contradiction.
Qed.

Lemma listdir_dir (path : string) (entries : list string) :
  fs path = Some (Dir entries) ->
  listdir fs path = (Ok entries, [Listdir path]).
Proof. intros H. unfold listdir, tell. rewrite bind_ok, H. reflexivity. Qed.

(** Where every image directory exists, the enumeration never raises and
    returns the listings appended in the order of the scenes. *)
Lemma list_images_spec (root : string) (scenes : list string) :
  Forall (fun s => dir_exists fs (path_join root [s; images_dir])) scenes ->
  exists listings,
    Forall2 (fun s es => fs (path_join root [s; images_dir]) = Some (Dir es))
            scenes listings /\
    forall acc,
      value (list_images fs root scenes acc) = Ok (acc ++ concat listings).
Proof.
  induction 1 as [|s rest [es Hs] _ (ls & HF & Hv)].
  - exists []. split; [constructor|]. intros acc. cbn. now rewrite app_nil_r.
  - exists (es :: ls). split; [now constructor|]. intros acc.
    cbn [list_images]. rewrite (listdir_dir _ _ Hs), bind_ok.
    cbn [value fst concat]. rewrite (Hv (acc ++ es)). now rewrite app_assoc.
Qed.

Lemma list_sort_length (l : list string) :
  List.length (list_sort l) = List.length l.
Proof. symmetry. apply Permutation_length, StringSort.Permuted_sort. Qed.

End Construction.

Lemma init_unfold (fs : filesystem) (root : string) (train : bool)
      (t : option (ndarray -> IO ndarray))
      (tt : option (list box -> IO (list box)))
      (sl : option (list string)) (cls : bool) :
  init fs root train t tt sl cls
  = (ok <- check_integrity fs root (resolve_scene_list train sl) ;;
     if negb ok then raise (RuntimeError "Dataset not found or corrupted.")
     else
       image_names <- list_images fs root (resolve_scene_list train sl) [] ;;
       ret (mk_AVD root t tt cls train (resolve_scene_list train sl)
                   (list_sort image_names))).
Proof. reflexivity. Qed.

Lemma scene_intact_images (fs : filesystem) (root : string) (scenes : list string) :
  Forall (scene_intact fs root) scenes ->
  Forall (fun s => dir_exists fs (path_join root [s; images_dir])) scenes.
Proof. apply Forall_impl. intros s (_ & H & _). exact H. Qed.

(** What construction does once the check has passed. *)
Lemma init_intact (fs : filesystem) (root : string) (train : bool)
      (t : option (ndarray -> IO ndarray))
      (tt : option (list box -> IO (list box)))
      (sl : option (list string)) (cls : bool) :
  Forall (scene_intact fs root) (resolve_scene_list train sl) ->
  exists listings,
    Forall2 (fun s es => fs (path_join root [s; images_dir]) = Some (Dir es))
            (resolve_scene_list train sl) listings /\
    value (init fs root train t tt sl cls)
    = Ok (mk_AVD root t tt cls train (resolve_scene_list train sl)
                 (list_sort (concat listings))).
Proof.
  intros Hall. rewrite init_unfold.
  destruct (check_integrity_spec fs root (resolve_scene_list train sl))
    as (b & Hv & Hb).
  apply Hb in Hall as Hb'. subst b.
  destruct (list_images_spec fs root _ (scene_intact_images _ _ _ Hall))
    as (ls & HF & Hl).
  exists ls. split; [exact HF|].
  rewrite (io_eta (check_integrity _ _ _)), Hv, bind_ok. cbn [negb value fst].
  rewrite (io_eta (list_images _ _ _ _)), (Hl []), bind_ok. reflexivity.
Qed.

(** C2. When every scene of the effective list has its directory, its
    image subdirectory and its annotation file, construction returns an
    adapter, and its length is the number of entries of the scenes' image
    subdirectories taken together. *)
Theorem init_length_counts_entries (fs : filesystem) (root : string)
        (train : bool) (t : option (ndarray -> IO ndarray))
        (tt : option (list box -> IO (list box)))
        (sl : option (list string)) (cls : bool) :
  Forall (scene_intact fs root) (resolve_scene_list train sl) ->
  exists self listings,
    value (init fs root train t tt sl cls) = Ok self /\
    Forall2 (fun s es => fs (path_join root [s; images_dir]) = Some (Dir es))
            (resolve_scene_list train sl) listings /\
    len self = list_sum (map (@List.length string) listings).
Proof.
  intros Hall.
  destruct (init_intact fs root train t tt sl cls Hall) as (ls & HF & Hv).
  eexists. exists ls. split; [exact Hv|]. split; [exact HF|].
  unfold len. cbn [image_names]. rewrite list_sort_length.
  clear. induction ls as [|es ls IH]; [reflexivity|].
  cbn [concat map list_sum]. now rewrite length_app, IH.
Qed.

(** C2 on the sample dataset: one scene with two images. *)
Lemma init_length_counts_entries_witness :
  exists self listings,
    value (init Sample.disk "/data" true None None (Some ["Home_001_1"]) false)
    = Ok self /\
    Forall2 (fun s es =>
               Sample.disk (path_join "/data" [s; images_dir]) = Some (Dir es))
            ["Home_001_1"] listings /\
    len self = list_sum (map (@List.length string) listings).
Proof.
  apply (init_length_counts_entries Sample.disk "/data" true None None
           (Some ["Home_001_1"]) false).
  repeat constructor; eexists; reflexivity.
Defined.

Lemma check_integrity_app_fail (fs : filesystem) (root : string)
      (pre : list string) (s : string) (post : list string) :
  Forall (scene_intact fs root) pre ->
  ~ scene_intact fs root s ->
  check_integrity fs root (pre ++ s :: post)
  = (Ok false,
     log (check_integrity fs root pre) ++ log (scene_present fs root s)).
Proof.
  intros Hpre Hs. induction Hpre as [|p pre Hp _ IH].
  - cbn [app]. now rewrite (check_integrity_fail fs root s post Hs).
  - cbn [app]. rewrite (check_integrity_cons fs root p _ Hp), IH.
    rewrite (check_integrity_cons fs root p _ Hp).
    cbn [value log fst snd]. now rewrite app_assoc.
Qed.

Lemma not_Forall_Exists_intact (fs : filesystem) (root : string)
      (scenes : list string) :
  ~ Forall (scene_intact fs root) scenes ->
  Exists (fun s => ~ scene_intact fs root s) scenes.
Proof.
  induction scenes as [|s rest IH]; intros H.
  - exfalso. apply H. constructor.
  - destruct (scene_intact_dec fs root s) as [Hs|Hs].
    + right. apply IH. intros Hr. apply H. now constructor.
    + now left.
Qed.

(** C3. Construction raises the "Dataset not found or corrupted." error
    exactly when some scene of the effective list lacks its directory, its
    image subdirectory or its annotation file.  The integrity check
    answers true exactly when every scene has all three, and answers false
    at the first scene that fails, without looking at the scenes after it. *)
Theorem init_raises_iff_scene_missing (fs : filesystem) (root : string)
        (train : bool) (t : option (ndarray -> IO ndarray))
        (tt : option (list box -> IO (list box)))
        (sl : option (list string)) (cls : bool) :
  (value (init fs root train t tt sl cls)
   = Raise (RuntimeError "Dataset not found or corrupted.")
   <-> Exists (fun s => ~ scene_intact fs root s) (resolve_scene_list train sl))
  /\
  (forall scenes : list string,
     value (check_integrity fs root scenes) = Ok true
     <-> Forall (scene_intact fs root) scenes)
  /\
  (forall (pre : list string) (s : string) (post : list string),
     Forall (scene_intact fs root) pre ->
     ~ scene_intact fs root s ->
     check_integrity fs root (pre ++ s :: post)
     = (Ok false,
        log (check_integrity fs root pre) ++ log (scene_present fs root s))).
Proof.
  split; [|split].
  - split.
    + intros Hr. apply not_Forall_Exists_intact. intros Hall.
      destruct (init_intact fs root train t tt sl cls Hall) as (ls & _ & Hv).
      rewrite Hv in Hr. discriminate.
    + intros Hex. rewrite init_unfold.
      destruct (check_integrity_spec fs root (resolve_scene_list train sl))
        as (b & Hv & Hb).
      rewrite (io_eta (check_integrity _ _ _)), Hv, bind_ok.
      destruct b; [|reflexivity].
      exfalso. apply Exists_exists in Hex as (s & Hin & Hs).
      apply Hs. assert (Hall : Forall (scene_intact fs root)
                                      (resolve_scene_list train sl))
        by now apply Hb.
      rewrite Forall_forall in Hall. now apply Hall.
  - intros scenes.
    destruct (check_integrity_spec fs root scenes) as (b & Hv & Hb).
    rewrite Hv. rewrite <- Hb. split; [now intros [= ->] | now intros ->].
  - apply check_integrity_app_fail.
Qed.

(** C3 on the sample dataset: the second of three scenes is absent, the
    third is never looked at. *)
Lemma init_raises_iff_scene_missing_witness :
  value (init Sample.disk "/data" true None None
              (Some ["Home_001_1"; "Home_009_9"; "Home_001_1"]) false)
  = Raise (RuntimeError "Dataset not found or corrupted.") /\
  check_integrity Sample.disk "/data" (["Home_001_1"] ++ "Home_009_9" :: ["Home_001_1"])
  = (Ok false,
     log (check_integrity Sample.disk "/data" ["Home_001_1"])
       ++ log (scene_present Sample.disk "/data" "Home_009_9")).
Proof.
  assert (Hmiss : ~ scene_intact Sample.disk "/data" "Home_009_9").
  { intros ([es H] & _). discriminate H. }
  destruct (init_raises_iff_scene_missing Sample.disk "/data" true None None
              (Some ["Home_001_1"; "Home_009_9"; "Home_001_1"]) false)
    as (Hiff & _ & Hfirst).
  split.
  - apply Hiff. right. left. exact Hmiss.
  - apply Hfirst; [|exact Hmiss].
    repeat constructor; eexists; reflexivity.
Defined.

(** C9. The effective scene list is the caller's list whenever one is
    given; with none given it is the built-in train list, of 11 names,
    when the train flag is true, and the built-in test list, of 3 names,
    when it is false.  Construction checks that list and stores it. *)
Theorem init_effective_scene_list :
  (forall (train : bool) (l : list string),
     resolve_scene_list train (Some l) = l) /\
  (resolve_scene_list true None = default_train_list /\
   List.length default_train_list = 11) /\
  (resolve_scene_list false None = default_test_list /\
   List.length default_test_list = 3) /\
  (forall (fs : filesystem) (root : string) (train : bool)
          (t : option (ndarray -> IO ndarray))
          (tt : option (list box -> IO (list box)))
          (sl : option (list string)) (cls : bool),
     (exists rest,
        log (init fs root train t tt sl cls)
        = log (check_integrity fs root (resolve_scene_list train sl)) ++ rest) /\
     (forall self : AVD,
        value (init fs root train t tt sl cls) = Ok self ->
        scene_list self = resolve_scene_list train sl)).
Proof.
  split; [reflexivity|]. split; [split; reflexivity|].
  split; [split; reflexivity|].
  intros fs root train t tt sl cls. split.
  - rewrite init_unfold. apply log_bind_prefix.
  - intros self. rewrite init_unfold.
    destruct (check_integrity fs root (resolve_scene_list train sl))
      as [[[|]|e] l0]; cbn [bind negb raise value fst]; try discriminate.
    destruct (list_images fs root (resolve_scene_list train sl) [])
      as [[names|e] l1]; cbn [bind ret value fst]; try discriminate.
    intros [= <-]. reflexivity.
Qed.

(** C9 on the sample dataset: the caller's list is the one stored. *)
Lemma init_effective_scene_list_witness :
  scene_list (Sample.adapter false) = resolve_scene_list true (Some ["Home_001_1"]).
Proof.
  destruct init_effective_scene_list as (_ & _ & _ & H).
  destruct (H Sample.disk "/data" true None None (Some ["Home_001_1"]) false)
    as (_ & Hs).
  apply (Hs (Sample.adapter false)). reflexivity.
Defined.

(** C10. With an empty scene list supplied by the caller, construction
    succeeds for every root: the check passes without a single call to
    the filesystem, the empty list is kept as the scene list, and the
    length of the adapter is 0. *)
Theorem init_empty_scene_list (fs : filesystem) (root : string) (train : bool)
        (t : option (ndarray -> IO ndarray))
        (tt : option (list box -> IO (list box))) (cls : bool) :
  check_integrity fs root [] = (Ok true, []) /\
  exists self : AVD,
    init fs root train t tt (Some []) cls = (Ok self, []) /\
    scene_list self = [] /\
    resolve_scene_list train (Some []) = [] /\
    len self = 0.
Proof.
  split; [reflexivity|].
  eexists. split; [reflexivity|]. repeat split.
Qed.

(** ** Item access *)

Lemma list_getitem_out_of_range {A} (l : list A) (i : Z) :
  (i < - Z.of_nat (List.length l) \/ Z.of_nat (List.length l) <= i)%Z ->
  list_getitem l i = Raise IndexError.
Proof.
  intros H. unfold list_getitem.
  destruct (Z.ltb_spec i 0).
  - destruct H as [H|H]; [|lia].
    destruct (Z.ltb_spec (i + Z.of_nat (List.length l)) 0); [reflexivity|lia].
  - destruct H as [H|H]; [lia|].
    destruct (Z.ltb_spec i 0); [lia|].
    destruct (Z.leb_spec (Z.of_nat (List.length l)) i); [reflexivity|lia].
Qed.

Lemma list_getitem_negative {A} (l : list A) (i : Z) :
  (- Z.of_nat (List.length l) <= i < 0)%Z ->
  list_getitem l i = list_getitem l (i + Z.of_nat (List.length l)).
Proof.
  intros H. unfold list_getitem. cbv zeta.
  replace (i <? 0)%Z with true by (symmetry; apply Z.ltb_lt; lia).
  assert (E : (i + Z.of_nat (List.length l) <? 0)%Z = false)
    by (apply Z.ltb_ge; lia).
  rewrite E. cbv iota. rewrite E. reflexivity.
Qed.

Lemma list_getitem_in_range {A} (l : list A) (i : Z) :
  (0 <= i < Z.of_nat (List.length l))%Z ->
  exists a, list_getitem l i = Ok a /\ nth_error l (Z.to_nat i) = Some a.
Proof.
  intros H. unfold list_getitem. cbv zeta.
  assert (E1 : (i <? 0)%Z = false) by (apply Z.ltb_ge; lia).
  assert (E2 : (Z.of_nat (List.length l) <=? i)%Z = false)
    by (apply Z.leb_gt; lia).
  rewrite E1. cbv iota. rewrite E1, E2. cbn [orb].
  destruct (nth_error l (Z.to_nat i)) as [a|] eqn:E; [now exists a|].
  apply nth_error_None in E. lia.
Qed.

Lemma getitem_unfold (fs : filesystem) (self : AVD) (index : Z) :
  getitem fs self index
  = ('(img, target) <- read_item fs self index ;;
     '(img, target) <- apply_transforms self img target ;;
     finish_item self img target).
Proof. reflexivity. Qed.

Lemma getitem_index_error (fs : filesystem) (self : AVD) (index : Z) :
  list_getitem (image_names self) index = Raise IndexError ->
  getitem fs self index = (Raise IndexError, []).
Proof.
  intros H. unfold getitem, read_item. rewrite H. reflexivity.
Qed.

Lemma getitem_same_name (fs : filesystem) (self : AVD) (i j : Z) :
  list_getitem (image_names self) i = list_getitem (image_names self) j ->
  getitem fs self i = getitem fs self j.
Proof.
  intros H. unfold getitem, read_item. rewrite H. reflexivity.
Qed.

(** C6, as the code has it. An index below [-length()] or at least
    [length()] raises [IndexError], before any file is touched.  For an
    index [i] with [-length() <= i < 0] the lookup in the index does not
    raise: it yields the name at position [i + length()], and item access
    at [i] is item access at [i + length()]. *)
Theorem getitem_index_out_of_range (fs : filesystem) (self : AVD) (i : Z) :
  ((i < - Z.of_nat (len self) \/ Z.of_nat (len self) <= i)%Z ->
   getitem fs self i = (Raise IndexError, [])) /\
  ((- Z.of_nat (len self) <= i < 0)%Z ->
   (exists name,
      nth_error (image_names self) (Z.to_nat (i + Z.of_nat (len self)))
      = Some name /\
      list_getitem (image_names self) i = Ok name) /\
   getitem fs self i = getitem fs self (i + Z.of_nat (len self))).
Proof.
  split; intros H.
  - apply getitem_index_error, list_getitem_out_of_range. exact H.
  - split.
    + rewrite (list_getitem_negative (image_names self) i H).
      destruct (list_getitem_in_range (image_names self)
                  (i + Z.of_nat (len self))) as (name & Hg & Hn).
      { unfold len in *. lia. }
      exists name. split; [exact Hn|exact Hg].
    + apply getitem_same_name, list_getitem_negative. exact H.
Qed.

(** C6 on the sample dataset, of length 2: index 2 and index -3 raise,
    index -1 finds the name at position 1 and is index 1. *)
Lemma getitem_index_out_of_range_witness :
  getitem Sample.disk (Sample.adapter false) 2 = (Raise IndexError, []) /\
  getitem Sample.disk (Sample.adapter false) (-3) = (Raise IndexError, []) /\
  (exists name,
     nth_error (image_names (Sample.adapter false)) (Z.to_nat (-1 + 2))
     = Some name /\
     list_getitem (image_names (Sample.adapter false)) (-1) = Ok name) /\
  getitem Sample.disk (Sample.adapter false) (-1)
  = getitem Sample.disk (Sample.adapter false) (-1 + 2).
Proof.
  split; [|split].
  - apply (proj1 (getitem_index_out_of_range Sample.disk (Sample.adapter false) 2)).
    right. simpl. lia.
  - apply (proj1 (getitem_index_out_of_range Sample.disk (Sample.adapter false) (-3))).
    left. simpl. lia.
  - apply (proj2 (getitem_index_out_of_range Sample.disk (Sample.adapter false) (-1))).
    simpl. lia.
Defined.

(** C6 as claimed fails: on the adapter constructed over the sample
    dataset, index -1 is below 0 and item access returns the last item. *)
Lemma getitem_negative_index_returns :
  value (init Sample.disk "/data" true None None (Some ["Home_001_1"]) false)
  = Ok (Sample.adapter false) /\
  (-1 < 0)%Z /\
  value (getitem Sample.disk (Sample.adapter false) (-1))
  = Ok (Detection Sample.small_image Sample.two_boxes) /\
  value (getitem Sample.disk (Sample.adapter false) (-1)) <> Raise IndexError.
Proof.
  split; [reflexivity|]. split; [lia|]. split; [reflexivity|discriminate].
Qed.

Lemma image_open_jpeg (fs : filesystem) (path : string) (img : ndarray) :
  fs path = Some (File (Jpeg img)) ->
  image_open fs path = (Ok img, [ImageOpen path]).
Proof. intros H. unfold image_open, tell. rewrite bind_ok, H. reflexivity. Qed.

Lemma json_load_json (fs : filesystem) (path : string) (ann : annotations) :
  fs path = Some (File (Json ann)) ->
  json_load fs path = (Ok ann, [JsonLoad path]).
Proof. intros H. unfold json_load, tell. rewrite bind_ok, H. reflexivity. Qed.

Lemma finish_item_log (self : AVD) (img : ndarray) (target : list box) :
  log (finish_item self img target) = [].
Proof.
  unfold finish_item. destruct (classification self); [|reflexivity].
  destruct (crop_boxes img target [] []) as [[images ids]|e]; reflexivity.
Qed.

(** Item access once the image and its boxes are read. *)
Lemma getitem_after_read (fs : filesystem) (self : AVD) (index : Z)
      (img : ndarray) (target : list box) (l : list event) :
  read_item fs self index = (Ok (img, target), l) ->
  getitem fs self index
  = bind (Ok tt, l)
         (fun _ => '(img, target) <- apply_transforms self img target ;;
                   finish_item self img target).
Proof. intros H. rewrite getitem_unfold, H. reflexivity. Qed.




(** ** Transforms *)

Lemma apply_transforms_unfold (self : AVD) (img : ndarray) (target : list box) :
  apply_transforms self img target
  = (img' <- match transform self with
             | Some f => f img
             | None => ret img
             end ;;
     target' <- match target_transform self with
                | Some g => g target
                | None => ret target
                end ;;
     ret (img', target')).
Proof. reflexivity. Qed.

Lemma finish_item_eta (self : AVD) (img : ndarray) (target : list box) :
  finish_item self img target = (value (finish_item self img target), []).
Proof. rewrite <- (finish_item_log self img target). apply io_eta. Qed.

(** Item access from the image and boxes read to the value returned, by
    the outcome of each transform. *)
Lemma getitem_by_transform (fs : filesystem) (self : AVD) (index : Z)
      (img0 : ndarray) (tgt0 : list box) (l0 : list event)
      (mi : IO ndarray) (mt : IO (list box)) :
  read_item fs self index = (Ok (img0, tgt0), l0) ->
  mi = match transform self with Some f => f img0 | None => ret img0 end ->
  mt = match target_transform self with Some g => g tgt0 | None => ret tgt0 end ->
  getitem fs self index
  = match value mi with
    | Raise e => (Raise e, l0 ++ log mi)
    | Ok img1 =>
        match value mt with
        | Raise e => (Raise e, l0 ++ log mi ++ log mt)
        | Ok tgt1 => (value (finish_item self img1 tgt1), l0 ++ log mi ++ log mt)
        end
    end.
Proof.
  intros Hread Hmi Hmt.
  rewrite (getitem_after_read _ _ _ _ _ _ Hread), apply_transforms_unfold.
  rewrite <- Hmi, <- Hmt.
  destruct mi as [[img1|e] l1]; cbn [value log fst snd]; [|reflexivity].
  destruct mt as [[tgt1|e] l2]; cbn [value log fst snd bind ret app].
  - rewrite (finish_item_eta self img1 tgt1). cbn [bind value fst].
    now rewrite ?app_nil_r.
  - now rewrite ?app_nil_r.
Qed.

(** C5. With the image and boxes of an item read: a supplied image
    transform is run on the image and a supplied target transform on the
    boxes, the image transform first (if it raises, the target transform
    is not run and its error is the one raised); what is returned, crops
    included, is computed from the two transformed values; and with an
    image transform that always returns one array, the image returned
    without classification is that array and the crops returned with
    classification are crops of it. *)
Theorem getitem_transforms (fs : filesystem) (self : AVD) (index : Z)
        (img0 : ndarray) (tgt0 : list box) (l0 : list event) :
  read_item fs self index = (Ok (img0, tgt0), l0) ->
  let mi := match transform self with Some f => f img0 | None => ret img0 end in
  let mt := match target_transform self with
            | Some g => g tgt0
            | None => ret tgt0
            end in
  (forall e, value mi = Raise e ->
             getitem fs self index = (Raise e, l0 ++ log mi)) /\
  (forall img1 e, value mi = Ok img1 -> value mt = Raise e ->
                  getitem fs self index = (Raise e, l0 ++ log mi ++ log mt)) /\
  (forall img1 tgt1,
     value mi = Ok img1 -> value mt = Ok tgt1 ->
     getitem fs self index
     = (value (finish_item self img1 tgt1), l0 ++ log mi ++ log mt) /\
     (classification self = false ->
      value (getitem fs self index) = Ok (Detection img1 tgt1)) /\
     (classification self = true ->
      forall images ids,
        value (getitem fs self index) = Ok (Crops images ids) <->
        crop_boxes img1 tgt1 [] [] = Ok (images, ids))) /\
  (forall (f : ndarray -> IO ndarray) (c : ndarray),
     transform self = Some f ->
     (forall x, value (f x) = Ok c) ->
     forall it : item,
       value (getitem fs self index) = Ok it ->
       match it with
       | Detection img _ => img = c
       | Crops images ids =>
           exists tgt1, crop_boxes c tgt1 [] [] = Ok (images, ids)
       end).
Proof.
  intros Hread mi mt.
  pose proof (getitem_by_transform fs self index img0 tgt0 l0 mi mt
                Hread eq_refl eq_refl) as Hget.
  assert (Hfin : forall img1 tgt1,
             value (finish_item self img1 tgt1)
             = if classification self
               then match crop_boxes img1 tgt1 [] [] with
                    | Ok (images, ids) => Ok (Crops images ids)
                    | Raise e => Raise e
                    end
               else Ok (Detection img1 tgt1)).
  { intros img1 tgt1. unfold finish_item. destruct (classification self).
    - destruct (crop_boxes img1 tgt1 [] []) as [[images ids]|e]; reflexivity.
    - reflexivity. }
  split; [|split; [|split]].
  - intros e He. now rewrite Hget, He.
  - intros img1 e Hi He. now rewrite Hget, Hi, He.
  - intros img1 tgt1 Hi Ht.
    assert (Hg : getitem fs self index
                 = (value (finish_item self img1 tgt1), l0 ++ log mi ++ log mt))
      by now rewrite Hget, Hi, Ht.
    split; [exact Hg|]. rewrite Hg. cbn [value fst]. rewrite Hfin. split.
    + now intros ->.
    + intros -> images ids.
      destruct (crop_boxes img1 tgt1 [] []) as [[images' ids']|e].
      * split; [now intros [= -> ->] | now intros [= -> ->]].
      * split; discriminate.
  - intros f c Hf Hconst it. rewrite Hget.
    assert (Hmi : value mi = Ok c) by (subst mi; rewrite Hf; apply Hconst).
    rewrite Hmi. destruct (value mt) as [tgt1|e]; [|discriminate].
    cbn [value fst]. rewrite Hfin. destruct (classification self).
    + destruct (crop_boxes c tgt1 [] []) as [[images ids]|e] eqn:Hc;
        [|discriminate].
      intros [= <-]. now exists tgt1.
    + now intros [= <-].
Qed.

(** C5 on the sample dataset, with the transforms that leave marks in the
    log: the mark of the image transform comes first. *)
Lemma getitem_transforms_witness :
  getitem Sample.disk Sample.marked_adapter 0
  = (Raise (UserError "target"),
     [ImageOpen "/data/Home_001_1/jpg_rgb/000110000010101.jpg";
      JsonLoad "/data/Home_001_1/annotations.json"]
       ++ [Apply "image"] ++ [Apply "target"]).
Proof.
  pose proof (getitem_transforms Sample.disk Sample.marked_adapter 0
                Sample.wide_image Sample.two_boxes
                [ImageOpen "/data/Home_001_1/jpg_rgb/000110000010101.jpg";
                 JsonLoad "/data/Home_001_1/annotations.json"] eq_refl)
    as (_ & H & _).
  exact (H Sample.black (UserError "target") eq_refl eq_refl).
Defined.

(** ** Classification crops *)

Lemma box_getitem (b : box) (i : Z) :
  (0 <= i < Z.of_nat (List.length b))%Z ->
  list_getitem b i = Ok (nth (Z.to_nat i) b 0%Z).
Proof.
  intros H. destruct (list_getitem_in_range b i H) as (a & -> & Hn).
  f_equal. symmetry. now apply nth_error_nth.
Qed.

Lemma list_getitem_firstn {A} (n : nat) (l : list A) (i : Z) :
  (0 <= i < Z.of_nat n)%Z ->
  list_getitem (firstn n l) i = list_getitem l i.
Proof.
  intros H. destruct (Nat.le_gt_cases (List.length l) n) as [Hl|Hl].
  - now rewrite firstn_all2.
  - destruct (list_getitem_in_range (firstn n l) i) as (a & -> & Ha).
    { rewrite length_firstn. lia. }
    destruct (list_getitem_in_range l i) as (a' & -> & Ha'); [lia|].
    rewrite nth_error_firstn in Ha.
    destruct (Nat.ltb_spec (Z.to_nat i) n); [congruence|lia].
Qed.

(** The loop on boxes that all have their five elements. *)
Lemma crop_boxes_spec (img : ndarray) (target : list box) :
  Forall (fun b => 5 <= List.length b) target ->
  forall images ids,
    crop_boxes img target images ids
    = Ok (images ++ map (crop_box img) target, ids ++ map box_id target).
Proof.
  induction 1 as [|b rest Hb _ IH]; intros images ids.
  - cbn. now rewrite !app_nil_r.
  - cbn [crop_boxes].
    rewrite (box_getitem b 1), (box_getitem b 3), (box_getitem b 0),
      (box_getitem b 2), (box_getitem b 4) by lia.
    rewrite IH. cbn [map]. unfold crop_box, box_id.
    now rewrite <- !app_assoc.
Qed.

(** The loop reads nothing of a box beyond index 4. *)
Lemma crop_boxes_firstn (img : ndarray) (target : list box) :
  forall images ids,
    crop_boxes img (map (firstn 5) target) images ids
    = crop_boxes img target images ids.
Proof.
  induction target as [|b rest IH]; intros images ids; [reflexivity|].
  cbn [map crop_boxes].
  rewrite !(list_getitem_firstn 5 b) by lia.
  destruct (list_getitem b 1) as [y0|e]; [|reflexivity].
  destruct (list_getitem b 3) as [y1|e]; [|reflexivity].
  destruct (list_getitem b 0) as [x0|e]; [|reflexivity].
  destruct (list_getitem b 2) as [x1|e]; [|reflexivity].
  destruct (list_getitem b 4) as [id|e]; [|reflexivity].
  apply IH.
Qed.

Lemma slice_extent_inside (n : nat) (lo hi : Z) :
  (0 <= lo <= hi)%Z -> (hi <= Z.of_nat n)%Z ->
  slice_extent n lo hi = (Z.to_nat lo, Z.to_nat (hi - lo)).
Proof.
  intros H1 H2. unfold slice_extent, adjust_bound.
  destruct (Z.ltb_spec lo 0); [lia|]. destruct (Z.ltb_spec hi 0); [lia|].
  now rewrite !Z.min_l by lia.
Qed.

Lemma crop_shape_inside (img : ndarray) (y0 y1 x0 x1 : Z) :
  (0 <= y0 <= y1)%Z -> (y1 <= Z.of_nat (rows img))%Z ->
  (0 <= x0 <= x1)%Z -> (x1 <= Z.of_nat (cols img))%Z ->
  shape (crop img y0 y1 x0 x1)
  = (Z.to_nat (y1 - y0), Z.to_nat (x1 - x0), chans img).
Proof.
  intros. unfold crop.
  rewrite (slice_extent_inside (rows img)), (slice_extent_inside (cols img))
    by assumption.
  reflexivity.
Qed.

(** C4, as the code has it. In classification mode, with [img] and
    [target] the image and boxes after the transforms and every box of at
    least five elements, item access returns for the boxes, in their
    order, the crops [img[box[1]:box[3], box[0]:box[2], :]] and the ids
    [box[4]]; nothing beyond index 4 of a box is read.  For the boxes
    [[10,20,50,60,3]] and [[0,0,5,5,7]] on an image of at least 60 rows
    and 50 columns, the crops have shapes (40,40,C) and (5,5,C) and the
    ids are [3,7]. *)
Theorem getitem_classification_crops (fs : filesystem) (self : AVD) (index : Z)
        (img0 img : ndarray) (tgt0 target : list box) (l0 l1 : list event) :
  classification self = true ->
  read_item fs self index = (Ok (img0, tgt0), l0) ->
  apply_transforms self img0 tgt0 = (Ok (img, target), l1) ->
  (Forall (fun b => 5 <= List.length b) target ->
   getitem fs self index
   = (Ok (Crops (map (crop_box img) target) (map box_id target)), l0 ++ l1)) /\
  (getitem fs self index
   = (value ('(images, ids) <- lift (crop_boxes img (map (firstn 5) target) [] []) ;;
             ret (Crops images ids)),
      l0 ++ l1)) /\
  (target = [[10; 20; 50; 60; 3]; [0; 0; 5; 5; 7]]%Z ->
   60 <= rows img -> 50 <= cols img ->
   exists c1 c2,
     value (getitem fs self index) = Ok (Crops [c1; c2] [3; 7]%Z) /\
     shape c1 = (40, 40, chans img) /\
     shape c2 = (5, 5, chans img)).
Proof.
  intros Hc Hread Happ.
  assert (Hget : getitem fs self index
                 = (value ('(images, ids) <- lift (crop_boxes img target [] []) ;;
                           ret (Crops images ids)),
                    l0 ++ l1)).
  { rewrite (getitem_after_read _ _ _ _ _ _ Hread), Happ.
    cbn [bind]. rewrite (finish_item_eta self img target).
    unfold finish_item. rewrite Hc. now rewrite app_nil_r. }
  split; [|split].
  - intros Hall. rewrite Hget, (crop_boxes_spec img target Hall). reflexivity.
  - rewrite Hget, crop_boxes_firstn. reflexivity.
  - intros -> Hr Hw.
    exists (crop img 20 60 10 50), (crop img 0 5 0 5).
    split; [rewrite Hget; reflexivity|].
    split; rewrite crop_shape_inside by lia; reflexivity.
Qed.

(** C4 on the sample dataset: the first image has 80 rows and 64 columns. *)
Lemma getitem_classification_crops_witness :
  getitem Sample.disk (Sample.adapter true) 0
  = (Ok (Crops (map (crop_box Sample.wide_image) Sample.two_boxes) [3; 7]%Z),
     [ImageOpen "/data/Home_001_1/jpg_rgb/000110000010101.jpg";
      JsonLoad "/data/Home_001_1/annotations.json"] ++ []) /\
  exists c1 c2,
    value (getitem Sample.disk (Sample.adapter true) 0)
    = Ok (Crops [c1; c2] [3; 7]%Z) /\
    shape c1 = (40, 40, 3) /\ shape c2 = (5, 5, 3).
Proof.
  pose proof (getitem_classification_crops Sample.disk (Sample.adapter true) 0
                Sample.wide_image Sample.wide_image
                Sample.two_boxes Sample.two_boxes
                [ImageOpen "/data/Home_001_1/jpg_rgb/000110000010101.jpg";
                 JsonLoad "/data/Home_001_1/annotations.json"] []
                eq_refl eq_refl eq_refl) as (Hall & _ & Hex).
  split.
  - apply Hall. repeat constructor.
  - apply Hex; [reflexivity | simpl; lia | simpl; lia].
Defined.

(** C4 as claimed fails: on the second image of the sample dataset, of 30
    rows and 30 columns, the first crop has shape (10,20,3), not
    (40,40,3). *)
Lemma getitem_crop_shape_clamped :
  value (getitem Sample.disk (Sample.adapter true) 1)
  = Ok (Crops [crop Sample.small_image 20 60 10 50;
               crop Sample.small_image 0 5 0 5] [3; 7]%Z) /\
  shape (crop Sample.small_image 20 60 10 50) = (10, 20, 3) /\
  shape (crop Sample.small_image 20 60 10 50) <> (40, 40, 3).
Proof.
  split; [reflexivity|]. split; [reflexivity|discriminate].
Qed.

(** ** The order of the index *)

Lemma leb_nil_l (s : string) : String.leb "" s = true.
Proof. destruct s; reflexivity. Qed.

Lemma leb_cons_nil (x : ascii) (a : string) : String.leb (String x a) "" = false.
Proof. reflexivity. Qed.

Lemma leb_cons (x y : ascii) (a b : string) :
  String.leb (String x a) (String y b) = true
  <-> (N_of_ascii x < N_of_ascii y)%N \/ (x = y /\ String.leb a b = true).
Proof.
  unfold String.leb. cbn [String.compare].
  destruct (Ascii.compare x y) eqn:E.
  - apply Ascii.compare_eq_iff in E. subst y. split.
    + intros H. right. split; [reflexivity|exact H].
    + intros [H|[_ H]]; [lia|exact H].
  - unfold Ascii.compare in E. apply N.compare_lt_iff in E.
    split; [now left|reflexivity].
  - unfold Ascii.compare in E. apply N.compare_gt_iff in E.
    split; [discriminate|]. intros [H|[-> _]]; lia.
Qed.

Lemma leb_refl (s : string) : String.leb s s = true.
Proof. destruct (String.leb_total s s); assumption. Qed.

Lemma leb_trans (a b c : string) :
  String.leb a b = true -> String.leb b c = true -> String.leb a c = true.
Proof.
  revert b c. induction a as [|x a IH]; intros b c Hab Hbc.
  - apply leb_nil_l.
  - destruct b as [|y b]; [discriminate|].
    destruct c as [|z c]; [discriminate|].
    apply leb_cons in Hab. apply leb_cons in Hbc. apply leb_cons.
    destruct Hab as [Hab|[-> Hab]], Hbc as [Hbc|[-> Hbc]].
    + left. lia.
    + now left.
    + now left.
    + right. split; [reflexivity|]. now apply (IH b c).
Qed.

(** A name between two names that begin with [p] begins with [p]. *)
Lemma prefix_between (p a b c : string) :
  String.leb a b = true -> String.leb b c = true ->
  String.prefix p a = true -> String.prefix p c = true ->
  String.prefix p b = true.
Proof.
  revert a b c. induction p as [|x p IH]; intros a b c Hab Hbc Ha Hc.
  - destruct b; reflexivity.
  - destruct a as [|x1 a]; [discriminate|].
    destruct c as [|x3 c]; [discriminate|].
    destruct b as [|x2 b]; [discriminate|].
    cbn [String.prefix] in *.
    destruct (ascii_dec x x1) as [<-|]; [|discriminate].
    destruct (ascii_dec x x3) as [<-|]; [|discriminate].
    apply leb_cons in Hab. apply leb_cons in Hbc.
    destruct Hab as [Hab|[<- Hab]], Hbc as [Hbc|[E Hbc]]; try lia.
    + subst x2. lia.
    + destruct (ascii_dec x x); [|contradiction]. now apply (IH a b c).
Qed.

Lemma substring_five_length (s p : string) :
  String.substring 0 5 s = p -> String.length p = 5 -> 5 <= String.length s.
Proof.
  intros <-.
  destruct s as [|c0 [|c1 [|c2 [|c3 [|c4 rest]]]]]; cbn; intros H; lia.
Qed.

Lemma substring_five_of_length (s : string) :
  5 <= String.length s -> String.length (String.substring 0 5 s) = 5.
Proof.
  intros H.
  destruct (length_five_inv s H) as (c0 & c1 & c2 & c3 & c4 & rest & ->).
  destruct rest; reflexivity.
Qed.

Lemma scene_name_of_first_five (a b : string) :
  5 <= String.length a -> 5 <= String.length b ->
  String.substring 0 5 a = String.substring 0 5 b ->
  scene_name_of a = scene_name_of b.
Proof.
  intros Ha Hb E.
  destruct (length_five_inv a Ha) as (c0 & c1 & c2 & c3 & c4 & rest & ->).
  destruct (length_five_inv b Hb) as (d0 & d1 & d2 & d3 & d4 & rest' & ->).
  cbn in E. injection E as -> -> -> -> ->. reflexivity.
Qed.

Lemma list_sort_sorted (l : list string) : StronglySorted leb_rel (list_sort l).
Proof.
  apply Sorted_StronglySorted.
  - intros a b c. unfold leb_rel, is_true. apply leb_trans.
  - apply StringSort.Sorted_sort.
Qed.

Lemma StronglySorted_nth (l : list string) :
  StronglySorted leb_rel l ->
  forall i j a b, i <= j -> nth_error l i = Some a -> nth_error l j = Some b ->
                  String.leb a b = true.
Proof.
  induction 1 as [|x l Hs IH Hx]; intros i j a b Hij Ha Hb.
  - destruct i; discriminate.
  - destruct i as [|i], j as [|j]; cbn in Ha, Hb.
    + injection Ha as <-. injection Hb as <-. apply leb_refl.
    + injection Ha as <-. apply nth_error_In in Hb.
      rewrite Forall_forall in Hx. now apply Hx.
    + lia.
    + apply (IH i j); [lia|assumption|assumption].
Qed.

(** Two sorted lists with the same elements are the same list. *)
Lemma sorted_perm_eq (l1 l2 : list string) :
  StronglySorted leb_rel l1 -> StronglySorted leb_rel l2 ->
  Permutation l1 l2 -> l1 = l2.
Proof.
  intros H1. revert l2. induction H1 as [|a l1 Hs1 IH Ha]; intros l2 H2 HP.
  - apply Permutation_nil in HP. now subst.
  - destruct H2 as [|b l2 Hs2 Hb].
    + apply Permutation_sym, Permutation_nil in HP. discriminate.
    + assert (Eab : a = b).
      { rewrite Forall_forall in Ha, Hb.
        assert (Hin_a : In a (b :: l2))
          by (apply (Permutation_in _ HP); now left).
        assert (Hin_b : In b (a :: l1))
          by (apply (Permutation_in _ (Permutation_sym HP)); now left).
        destruct Hin_a as [->|Hin_a]; [reflexivity|].
        destruct Hin_b as [->|Hin_b]; [reflexivity|].
        apply String.leb_antisym; [now apply Ha | now apply Hb]. }
      subst b. f_equal. apply IH; [assumption|].
      now apply Permutation_cons_inv in HP.
Qed.

Lemma list_sort_perm (l1 l2 : list string) :
  Permutation l1 l2 -> list_sort l1 = list_sort l2.
Proof.
  intros HP. apply sorted_perm_eq; try apply list_sort_sorted.
  transitivity l1; [symmetry; apply StringSort.Permuted_sort|].
  transitivity l2; [exact HP|apply StringSort.Permuted_sort].
Qed.

Lemma init_ok_intact (fs : filesystem) (root : string) (train : bool)
      (t : option (ndarray -> IO ndarray))
      (tt : option (list box -> IO (list box)))
      (sl : option (list string)) (cls : bool) (self : AVD) :
  value (init fs root train t tt sl cls) = Ok self ->
  Forall (scene_intact fs root) (resolve_scene_list train sl).
Proof.
  intros H. rewrite init_unfold in H.
  destruct (check_integrity_spec fs root (resolve_scene_list train sl))
    as (b & Hv & Hb).
  rewrite (io_eta (check_integrity _ _ _)), Hv, bind_ok in H.
  destruct b; [now apply Hb | discriminate H].
Qed.

(** The index of a constructed adapter is the sorted concatenation of the
    listings of its scenes. *)
Lemma init_ok_index (fs : filesystem) (root : string) (train : bool)
      (t : option (ndarray -> IO ndarray))
      (tt : option (list box -> IO (list box)))
      (sl : option (list string)) (cls : bool) (self : AVD) :
  value (init fs root train t tt sl cls) = Ok self ->
  exists listings,
    Forall2 (fun s es => fs (path_join root [s; images_dir]) = Some (Dir es))
            (resolve_scene_list train sl) listings /\
    image_names self = list_sort (concat listings).
Proof.
  intros H.
  destruct (init_intact fs root train t tt sl cls (init_ok_intact _ _ _ _ _ _ _ _ H))
    as (ls & HF & Hv).
  exists ls. split; [exact HF|].
  rewrite Hv in H. injection H as <-. reflexivity.
Qed.

Lemma listings_perm (fs1 fs2 : filesystem) (root : string)
      (scenes : list string) (ls1 ls2 : list (list string)) :
  Forall2 (fun s es => fs1 (path_join root [s; images_dir]) = Some (Dir es))
          scenes ls1 ->
  Forall2 (fun s es => fs2 (path_join root [s; images_dir]) = Some (Dir es))
          scenes ls2 ->
  (forall s es1 es2,
     In s scenes ->
     fs1 (path_join root [s; images_dir]) = Some (Dir es1) ->
     fs2 (path_join root [s; images_dir]) = Some (Dir es2) ->
     Permutation es1 es2) ->
  Permutation (concat ls1) (concat ls2).
Proof.
  intros H1. revert ls2.
  induction H1 as [|s es1 scenes ls1 Hs1 _ IH]; intros ls2 H2 HP.
  - inversion H2. constructor.
  - inversion H2 as [|s' es2 scenes' ls2' Hs2 H2' E1 E2]. subst.
    cbn [concat]. apply Permutation_app.
    + apply (HP s); [now left|assumption|assumption].
    + apply IH; [assumption|]. intros s0 e1 e2 Hin. apply HP. now right.
Qed.

(** X17. Two constructions with the same root and scene list, over
    filesystems whose image directories hold the same names in whatever
    order, give the same index; the index is ascending; and a name of the
    index that lies between two names sharing their first five characters
    shares these five characters and derives the same scene. *)
Theorem init_index_deterministic (fs1 fs2 : filesystem) (root : string)
        (train : bool) (sl : option (list string))
        (t1 t2 : option (ndarray -> IO ndarray))
        (tt1 tt2 : option (list box -> IO (list box)))
        (cls1 cls2 : bool) (self1 self2 : AVD) :
  value (init fs1 root train t1 tt1 sl cls1) = Ok self1 ->
  value (init fs2 root train t2 tt2 sl cls2) = Ok self2 ->
  (forall s es1 es2,
     In s (resolve_scene_list train sl) ->
     fs1 (path_join root [s; images_dir]) = Some (Dir es1) ->
     fs2 (path_join root [s; images_dir]) = Some (Dir es2) ->
     Permutation es1 es2) ->
  image_names self1 = image_names self2 /\
  (forall i j a b,
     i <= j ->
     nth_error (image_names self1) i = Some a ->
     nth_error (image_names self1) j = Some b ->
     String.leb a b = true) /\
  (forall i j k a b c,
     i <= j -> j <= k ->
     nth_error (image_names self1) i = Some a ->
     nth_error (image_names self1) j = Some b ->
     nth_error (image_names self1) k = Some c ->
     5 <= String.length a ->
     String.substring 0 5 a = String.substring 0 5 c ->
     String.substring 0 5 b = String.substring 0 5 a /\
     scene_name_of b = scene_name_of a).
Proof.
  intros H1 H2 HP.
  destruct (init_ok_index _ _ _ _ _ _ _ _ H1) as (ls1 & HF1 & E1).
  destruct (init_ok_index _ _ _ _ _ _ _ _ H2) as (ls2 & HF2 & E2).
  assert (Hsorted : StronglySorted leb_rel (image_names self1))
    by (rewrite E1; apply list_sort_sorted).
  split; [|split].
  - rewrite E1, E2. apply list_sort_perm.
    exact (listings_perm fs1 fs2 root _ ls1 ls2 HF1 HF2 HP).
  - intros i j a b. apply (StronglySorted_nth _ Hsorted).
  - intros i j k a b c Hij Hjk Ha Hb Hc Hlen E.
    pose proof (StronglySorted_nth _ Hsorted i j a b Hij Ha Hb) as Hab.
    pose proof (StronglySorted_nth _ Hsorted j k b c Hjk Hb Hc) as Hbc.
    pose proof (substring_five_of_length a Hlen) as Hp.
    set (p := String.substring 0 5 a) in *.
    assert (Hpa : String.prefix p a = true)
      by (apply String.prefix_correct; rewrite Hp; reflexivity).
    assert (Hpc : String.prefix p c = true)
      by (apply String.prefix_correct; rewrite Hp; symmetry; exact E).
    pose proof (prefix_between p a b c Hab Hbc Hpa Hpc) as Hpb.
    apply String.prefix_correct in Hpb. rewrite Hp in Hpb.
    split; [exact Hpb|].
    apply scene_name_of_first_five;
      [exact (substring_five_length b p Hpb Hp) | exact Hlen | exact Hpb].
Qed.

(** X17 on the sample scene with three names, listed in two orders: the
    second name of the index lies between the first and the third. *)
Lemma init_index_deterministic_witness :
  image_names (Sample.shelf_adapter false)
  = image_names (Sample.shelf_adapter true) /\
  String.leb Sample.name_a Sample.name_c = true /\
  String.substring 0 5 Sample.name_b = String.substring 0 5 Sample.name_a /\
  scene_name_of Sample.name_b = scene_name_of Sample.name_a.
Proof.
  pose proof (init_index_deterministic Sample.shelf Sample.shelf' "/data" true
                (Some ["Home_001_1"]) None None None None false true
                (Sample.shelf_adapter false) (Sample.shelf_adapter true)
                eq_refl eq_refl) as H.
  destruct H as (Hsame & Hasc & Hcont).
  - intros s es1 es2 [<-|[]] E1 E2.
    injection E1 as <-. injection E2 as <-.
    exact (Permutation_app_comm [Sample.name_c; Sample.name_a] [Sample.name_b]).
  - split; [exact Hsame|]. split.
    + apply (Hasc 0 2 Sample.name_a Sample.name_c);
        [lia | reflexivity | reflexivity].
    + apply (Hcont 0 1 2 Sample.name_a Sample.name_b Sample.name_c);
        [lia | lia | reflexivity | reflexivity | reflexivity
         | simpl; lia | reflexivity].
Defined.

(** C8 at the failing input. The comment of line 93 says that sorting
    keeps the scenes together.  The adapter constructed over the two
    office scenes has the two images listed under "Office_001_1", which
    both derive that scene, at indices 0 and 2 of its index, and the
    image of "Office_002_1" between them at index 1: the names of one
    scene are not contiguous. *)
Lemma index_scene_not_contiguous :
  value (init Sample.offices "/avd" true None None
              (Some ["Office_001_1"; "Office_002_1"]) false)
  = Ok Sample.offices_adapter /\
  Sample.offices (path_join "/avd" ["Office_001_1"; images_dir])
  = Some (Dir ["1001100.jpg"; "2001100.jpg"]) /\
  Sample.offices (path_join "/avd" ["Office_002_1"; images_dir])
  = Some (Dir ["1002100.jpg"]) /\
  image_names Sample.offices_adapter
  = ["1001100.jpg"; "1002100.jpg"; "2001100.jpg"] /\
  scene_name_of "1001100.jpg" = Ok "Office_001_1" /\
  scene_name_of "1002100.jpg" = Ok "Office_002_1" /\
  scene_name_of "2001100.jpg" = Ok "Office_001_1" /\
  scene_name_of "1002100.jpg" <> scene_name_of "1001100.jpg".
Proof.
  repeat split; try reflexivity. discriminate.
Qed.

(** ** Further properties of item access *)

Lemma scene_name_of_short (name : string) :
  String.length name < 5 -> scene_name_of name = Raise IndexError.
Proof.
  intros H.
  destruct name as [|c0 [|c1 [|c2 [|c3 [|c4 rest]]]]]; cbn in H;
    try reflexivity; lia.
Qed.

(** X1. A name of fewer than five characters in the index makes item
    access raise [IndexError] before any file is opened. *)
Theorem getitem_short_name (fs : filesystem) (self : AVD) (index : Z)
        (name : string) :
  list_getitem (image_names self) index = Ok name ->
  String.length name < 5 ->
  getitem fs self index = (Raise IndexError, []).
Proof.
  intros Hn Hl. unfold getitem, read_item.
  rewrite Hn, bind_lift_ok, (scene_name_of_short name Hl). reflexivity.
Qed.

Lemma getitem_short_name_witness :
  getitem Sample.disk Sample.stray_adapter 0 = (Raise IndexError, []).
Proof.
  apply (getitem_short_name Sample.disk Sample.stray_adapter 0 "a.db");
    [reflexivity | simpl; lia].
Defined.

(** X2. The index of a constructed adapter holds exactly the entries of
    the image directories of its scenes, each as many times as it is
    listed: no entry is dropped or filtered, none is added. *)
Theorem init_index_permutation (fs : filesystem) (root : string) (train : bool)
        (t : option (ndarray -> IO ndarray))
        (tt : option (list box -> IO (list box)))
        (sl : option (list string)) (cls : bool) (self : AVD) :
  value (init fs root train t tt sl cls) = Ok self ->
  exists listings,
    Forall2 (fun s es => fs (path_join root [s; images_dir]) = Some (Dir es))
            (resolve_scene_list train sl) listings /\
    Permutation (concat listings) (image_names self) /\
    (forall name, In name (image_names self) <->
                  exists es, In es listings /\ In name es).
Proof.
  intros H. destruct (init_ok_index _ _ _ _ _ _ _ _ H) as (ls & HF & E).
  assert (HP : Permutation (concat ls) (image_names self))
    by (rewrite E; apply StringSort.Permuted_sort).
  exists ls. split; [exact HF|]. split; [exact HP|].
  intros name. split.
  - intros Hin. apply (Permutation_in _ (Permutation_sym HP)) in Hin.
    apply in_concat in Hin. exact Hin.
  - intros Hex. apply (Permutation_in _ HP), in_concat. exact Hex.
Qed.

Lemma init_index_permutation_witness :
  exists listings,
    Forall2 (fun s es =>
               Sample.disk (path_join "/data" [s; images_dir]) = Some (Dir es))
            (resolve_scene_list true (Some ["Home_001_1"])) listings /\
    Permutation (concat listings) (image_names (Sample.adapter false)) /\
    (forall name, In name (image_names (Sample.adapter false)) <->
                  exists es, In es listings /\ In name es).
Proof.
  apply (init_index_permutation Sample.disk "/data" true None None
           (Some ["Home_001_1"]) false (Sample.adapter false)).
  reflexivity.
Defined.

(** X3. When reading the item fails, the transforms are never run: item
    access raises the error of the read and has made the calls of the
    read only.  In particular, when the image cannot be opened, the
    annotation file is not opened either. *)
Theorem getitem_read_failure (fs : filesystem) (self : AVD) (index : Z) :
  (forall e, value (read_item fs self index) = Raise e ->
             getitem fs self index = (Raise e, log (read_item fs self index))) /\
  (forall name scene e,
     list_getitem (image_names self) index = Ok name ->
     scene_name_of name = Ok scene ->
     value (image_open fs (path_join (root self) [scene; images_dir; name]))
     = Raise e ->
     getitem fs self index
     = (Raise e, [ImageOpen (path_join (root self) [scene; images_dir; name])])).
Proof.
  split.
  - intros e He. rewrite getitem_unfold.
    destruct (read_item fs self index) as [[[img tgt]|e'] l];
      cbn [value fst] in He; [discriminate|].
    injection He as ->. reflexivity.
  - intros name scene e Hn Hs He. unfold getitem, read_item.
    rewrite Hn, bind_lift_ok, Hs, bind_lift_ok.
    pose proof (image_open_log fs (path_join (root self) [scene; images_dir; name]))
      as Hl.
    destruct (image_open fs (path_join (root self) [scene; images_dir; name]))
      as [[img|e'] l]; cbn [value log fst snd] in He, Hl; [discriminate|].
    injection He as ->. subst l. reflexivity.
Qed.

Lemma getitem_read_failure_witness :
  getitem Sample.offices Sample.offices_adapter 0
  = (Raise (FileNotFoundError "/avd/Office_001_1/jpg_rgb/1001100.jpg"),
     [ImageOpen (path_join "/avd" ["Office_001_1"; images_dir; "1001100.jpg"])]).
Proof.
  apply (proj2 (getitem_read_failure Sample.offices Sample.offices_adapter 0)
               "1001100.jpg" "Office_001_1"
               (FileNotFoundError "/avd/Office_001_1/jpg_rgb/1001100.jpg"));
    reflexivity.
Defined.

(** X4. A read that succeeds has made exactly two calls, in this order:
    it opened the image under the scene derived from the name, and it
    parsed the annotation file of that scene.  No directory is probed or
    listed at access time. *)
Theorem read_item_calls (fs : filesystem) (self : AVD) (index : Z)
        (img : ndarray) (target : list box) :
  value (read_item fs self index) = Ok (img, target) ->
  exists name scene,
    list_getitem (image_names self) index = Ok name /\
    scene_name_of name = Ok scene /\
    fs (path_join (root self) [scene; images_dir; name]) = Some (File (Jpeg img)) /\
    log (read_item fs self index)
    = [ImageOpen (path_join (root self) [scene; images_dir; name]);
       JsonLoad (path_join (root self) [scene; annotation_filename])].
Proof.
  unfold read_item.
  destruct (list_getitem (image_names self) index) as [name|e];
    [|discriminate].
  rewrite bind_lift_ok.
  destruct (scene_name_of name) as [scene|e] eqn:Hs; [|discriminate].
  rewrite bind_lift_ok. intros H. exists name, scene.
  split; [reflexivity|]. split; [exact Hs|].
  unfold image_open, json_load, tell in *.
  set (p := path_join (root self) [scene; images_dir; name]) in *.
  set (q := path_join (root self) [scene; annotation_filename]) in *.
  destruct (fs p) as [[es|[im|an|]]|]; try (cbn in H; discriminate H).
  destruct (fs q) as [[es|[im'|an|]]|]; try (cbn in H; discriminate H).
  unfold dict_getitem in H. cbn [bind lift ret value fst] in H.
  destruct (dict_find an name) as [rec|] eqn:Hrec; [|discriminate H].
  destruct (dict_find rec "bounding_boxes") as [bs|] eqn:Hbs;
    [|discriminate H].
  injection H as <- <-. split; [reflexivity|].
  unfold dict_getitem. cbn [bind lift ret]. rewrite Hrec. cbn [app].
  rewrite Hbs. reflexivity.
Qed.

Lemma read_item_calls_witness :
  exists name scene,
    list_getitem (image_names (Sample.adapter false)) 0 = Ok name /\
    scene_name_of name = Ok scene /\
    Sample.disk (path_join "/data" [scene; images_dir; name])
    = Some (File (Jpeg Sample.wide_image)) /\
    log (read_item Sample.disk (Sample.adapter false) 0)
    = [ImageOpen (path_join "/data" [scene; images_dir; name]);
       JsonLoad (path_join "/data" [scene; annotation_filename])].
Proof.
  apply (read_item_calls Sample.disk (Sample.adapter false) 0
           Sample.wide_image Sample.two_boxes).
  reflexivity.
Defined.

(** X5. A record of the annotation file that has no ['bounding_boxes']
    field makes item access raise [KeyError] for that field, after the
    image and the annotation file are read. *)
Theorem getitem_record_without_boxes (fs : filesystem) (self : AVD) (index : Z)
        (name scene : string) (img : ndarray) (ann : annotations) (rec : record) :
  list_getitem (image_names self) index = Ok name ->
  scene_name_of name = Ok scene ->
  fs (path_join (root self) [scene; images_dir; name]) = Some (File (Jpeg img)) ->
  fs (path_join (root self) [scene; annotation_filename]) = Some (File (Json ann)) ->
  dict_find ann name = Some rec ->
  dict_find rec "bounding_boxes" = None ->
  getitem fs self index
  = (Raise (KeyError "bounding_boxes"),
     [ImageOpen (path_join (root self) [scene; images_dir; name]);
      JsonLoad (path_join (root self) [scene; annotation_filename])]).
Proof.
  intros Hn Hs Hi Ha Hrec Hnone. unfold getitem, read_item.
  rewrite Hn, bind_lift_ok, Hs, bind_lift_ok.
  rewrite (image_open_jpeg _ _ _ Hi), (json_load_json _ _ _ Ha).
  unfold dict_getitem. cbn [bind lift]. rewrite Hrec. cbn [app].
  rewrite Hnone. reflexivity.
Qed.

Lemma getitem_record_without_boxes_witness :
  getitem Sample.keyless_disk (Sample.adapter false) 0
  = (Raise (KeyError "bounding_boxes"),
     [ImageOpen (path_join "/data" ["Home_001_1"; images_dir; Sample.name_a]);
      JsonLoad (path_join "/data" ["Home_001_1"; annotation_filename])]).
Proof.
  apply (getitem_record_without_boxes Sample.keyless_disk (Sample.adapter false)
           0 Sample.name_a "Home_001_1" Sample.wide_image
           [(Sample.name_a, [("rotate_ccw", [])])] [("rotate_ccw", [])]);
    reflexivity.
Defined.

(** ** Further properties of the crops *)

Lemma list_getitem_raises {A} (l : list A) (i : Z) (e : exn) :
  list_getitem l i = Raise e -> e = IndexError.
Proof.
  unfold list_getitem. cbv zeta.
  destruct (_ || _)%bool; [now intros [= <-]|].
  destruct (nth_error l _); [discriminate | now intros [= <-]].
Qed.

Lemma crop_boxes_short (img : ndarray) (target : list box) :
  Exists (fun b => List.length b < 5) target ->
  forall images ids, crop_boxes img target images ids = Raise IndexError.
Proof.
  induction 1 as [b rest Hb|b rest _ IH]; intros images ids; cbn [crop_boxes].
  - destruct (list_getitem b 1) as [y0|e] eqn:E1;
      [|now rewrite (list_getitem_raises _ _ _ E1)].
    destruct (list_getitem b 3) as [y1|e] eqn:E3;
      [|now rewrite (list_getitem_raises _ _ _ E3)].
    destruct (list_getitem b 0) as [x0|e] eqn:E0;
      [|now rewrite (list_getitem_raises _ _ _ E0)].
    destruct (list_getitem b 2) as [x1|e] eqn:E2;
      [|now rewrite (list_getitem_raises _ _ _ E2)].
    rewrite (list_getitem_out_of_range b 4) by lia. reflexivity.
  - destruct (list_getitem b 1) as [y0|e] eqn:E1;
      [|now rewrite (list_getitem_raises _ _ _ E1)].
    destruct (list_getitem b 3) as [y1|e] eqn:E3;
      [|now rewrite (list_getitem_raises _ _ _ E3)].
    destruct (list_getitem b 0) as [x0|e] eqn:E0;
      [|now rewrite (list_getitem_raises _ _ _ E0)].
    destruct (list_getitem b 2) as [x1|e] eqn:E2;
      [|now rewrite (list_getitem_raises _ _ _ E2)].
    destruct (list_getitem b 4) as [id|e] eqn:E4;
      [apply IH | now rewrite (list_getitem_raises _ _ _ E4)].
Qed.

(** X6. In classification mode a single box of fewer than five elements
    anywhere in the target makes the whole access raise [IndexError]: no
    crop is returned for the boxes before it. *)
Theorem getitem_short_box (fs : filesystem) (self : AVD) (index : Z)
        (img0 img : ndarray) (tgt0 target : list box) (l0 l1 : list event) :
  classification self = true ->
  read_item fs self index = (Ok (img0, tgt0), l0) ->
  apply_transforms self img0 tgt0 = (Ok (img, target), l1) ->
  Exists (fun b => List.length b < 5) target ->
  getitem fs self index = (Raise IndexError, l0 ++ l1).
Proof.
  intros Hc Hread Happ Hex.
  rewrite (getitem_after_read _ _ _ _ _ _ Hread), Happ.
  cbn [bind]. unfold finish_item. rewrite Hc.
  rewrite (crop_boxes_short img target Hex). cbn. now rewrite app_nil_r.
Qed.

Lemma getitem_short_box_witness :
  getitem Sample.disk
          (mk_AVD "/data" None (Some (fun t => ret (t ++ [[1; 2; 3; 4]%Z])))
                  true true ["Home_001_1"] [Sample.name_a; Sample.name_b]) 0
  = (Raise IndexError,
     [ImageOpen "/data/Home_001_1/jpg_rgb/000110000010101.jpg";
      JsonLoad "/data/Home_001_1/annotations.json"] ++ []).
Proof.
  apply (getitem_short_box Sample.disk _ 0 Sample.wide_image Sample.wide_image
           Sample.two_boxes (Sample.two_boxes ++ [[1; 2; 3; 4]%Z]));
    [reflexivity | reflexivity | reflexivity |].
  right. right. left. simpl. lia.
Defined.

Lemma slice_extent_bound (n : nat) (lo hi : Z) :
  fst (slice_extent n lo hi) + snd (slice_extent n lo hi) <= n.
Proof.
  unfold slice_extent, adjust_bound. cbn [fst snd].
  destruct (Z.ltb_spec lo 0), (Z.ltb_spec hi 0); lia.
Qed.

(** X7. A crop never reaches outside the image, whatever the four bounds
    are: it has at most the rows and the columns of the image, the same
    channels, and each of its pixels is a pixel of the image at a position
    inside the image. *)
Theorem crop_within_image (img : ndarray) (y0 y1 x0 x1 : Z) :
  rows (crop img y0 y1 x0 x1) <= rows img /\
  cols (crop img y0 y1 x0 x1) <= cols img /\
  chans (crop img y0 y1 x0 x1) = chans img /\
  (forall i j k,
     i < rows (crop img y0 y1 x0 x1) -> j < cols (crop img y0 y1 x0 x1) ->
     exists i' j',
       i' < rows img /\ j' < cols img /\
       px (crop img y0 y1 x0 x1) i j k = px img i' j' k).
Proof.
  unfold crop.
  pose proof (slice_extent_bound (rows img) y0 y1) as Hr.
  pose proof (slice_extent_bound (cols img) x0 x1) as Hw.
  destruct (slice_extent (rows img) y0 y1) as [r0 h].
  destruct (slice_extent (cols img) x0 x1) as [c0 w].
  cbn [fst snd rows cols chans px] in *.
  split; [lia|]. split; [lia|]. split; [reflexivity|].
  intros i j k Hi Hj. exists (r0 + i), (c0 + j).
  split; [lia|]. split; [lia|reflexivity].
Qed.

(** X8. A box gives a crop of no rows, rather than an error, when its
    upper row bound is not above its lower one and the two bounds have
    the same sign (both at least 0, or both below 0), and also when its
    lower row bound is at least the number of rows of the image; the same
    holds for columns. *)
Theorem crop_degenerate (img : ndarray) (y0 y1 x0 x1 : Z) :
  ((y1 <= y0)%Z /\ ((0 <= y1)%Z \/ (y0 < 0)%Z)
   \/ (Z.of_nat (rows img) <= y0)%Z ->
   rows (crop img y0 y1 x0 x1) = 0) /\
  ((x1 <= x0)%Z /\ ((0 <= x1)%Z \/ (x0 < 0)%Z)
   \/ (Z.of_nat (cols img) <= x0)%Z ->
   cols (crop img y0 y1 x0 x1) = 0).
Proof.
  assert (Hempty : forall n lo hi,
             (hi <= lo)%Z /\ ((0 <= hi)%Z \/ (lo < 0)%Z)
             \/ (Z.of_nat n <= lo)%Z ->
             snd (slice_extent n lo hi) = 0).
  { intros n lo hi H. unfold slice_extent, adjust_bound. cbn [snd].
    destruct (Z.ltb_spec lo 0), (Z.ltb_spec hi 0); lia. }
  unfold crop.
  pose proof (Hempty (rows img) y0 y1) as Hr.
  pose proof (Hempty (cols img) x0 x1) as Hw.
  destruct (slice_extent (rows img) y0 y1) as [r0 h].
  destruct (slice_extent (cols img) x0 x1) as [c0 w].
  cbn [snd rows cols] in *. split; assumption.
Qed.

Lemma crop_degenerate_witness :
  rows (crop Sample.small_image 20 10 0 5) = 0 /\
  rows (crop Sample.small_image (-5) (-7) 0 5) = 0 /\
  cols (crop Sample.small_image 0 5 30 40) = 0.
Proof.
  split; [|split].
  - apply (proj1 (crop_degenerate Sample.small_image 20 10 0 5)). left. lia.
  - apply (proj1 (crop_degenerate Sample.small_image (-5) (-7) 0 5)).
    left. lia.
  - apply (proj2 (crop_degenerate Sample.small_image 0 5 30 40)).
    right. simpl. lia.
Defined.

(** X9. A negative bound of a box is not clamped to the edge: when it is
    no less than minus the length of its axis it is counted from the far
    end, so the crop is the one of the bound plus that length; below
    that it is the crop from 0. *)
Theorem crop_negative_bound (img : ndarray) (y0 y1 x0 x1 : Z) :
  ((- Z.of_nat (rows img) <= y0 < 0)%Z ->
   crop img y0 y1 x0 x1 = crop img (y0 + Z.of_nat (rows img)) y1 x0 x1) /\
  ((y0 < - Z.of_nat (rows img))%Z ->
   crop img y0 y1 x0 x1 = crop img 0 y1 x0 x1) /\
  ((- Z.of_nat (cols img) <= x0 < 0)%Z ->
   crop img y0 y1 x0 x1 = crop img y0 y1 (x0 + Z.of_nat (cols img)) x1) /\
  ((x0 < - Z.of_nat (cols img))%Z ->
   crop img y0 y1 x0 x1 = crop img y0 y1 0 x1).
Proof.
  assert (Hwrap : forall n lo hi,
             (- Z.of_nat n <= lo < 0)%Z ->
             slice_extent n lo hi = slice_extent n (lo + Z.of_nat n) hi).
  { intros n lo hi H. unfold slice_extent, adjust_bound.
    destruct (Z.ltb_spec lo 0); [|exfalso; lia].
    destruct (Z.ltb_spec (lo + Z.of_nat n) 0); [exfalso; lia|].
    rewrite (Z.max_r 0 (lo + Z.of_nat n)),
      (Z.min_l (lo + Z.of_nat n) (Z.of_nat n)) by lia.
    reflexivity. }
  assert (Hclamp : forall n lo hi,
             (lo < - Z.of_nat n)%Z ->
             slice_extent n lo hi = slice_extent n 0 hi).
  { intros n lo hi H. unfold slice_extent, adjust_bound.
    destruct (Z.ltb_spec lo 0); [|exfalso; lia].
    destruct (Z.ltb_spec 0 0); [exfalso; lia|].
    rewrite (Z.max_l 0 (lo + Z.of_nat n)), (Z.min_l 0 (Z.of_nat n)) by lia.
    reflexivity. }
  unfold crop. repeat split; intros H.
  - now rewrite (Hwrap _ _ _ H).
  - now rewrite (Hclamp _ _ _ H).
  - now rewrite (Hwrap (cols img) _ _ H).
  - now rewrite (Hclamp (cols img) _ _ H).
Qed.

Lemma crop_negative_bound_witness :
  crop Sample.small_image (-10) 30 0 5 = crop Sample.small_image (-10 + 30) 30 0 5 /\
  crop Sample.small_image 0 5 (-40) 5 = crop Sample.small_image 0 5 0 5.
Proof.
  split.
  - apply (proj1 (crop_negative_bound Sample.small_image (-10) 30 0 5)).
    simpl. lia.
  - apply (proj2 (proj2 (proj2 (crop_negative_bound Sample.small_image 0 5 (-40) 5)))).
    simpl. lia.
Defined.

(** ** Further properties of construction *)

(** X11. The condition of the check stops at the first of its three
    tests that fails: a scene without its directory costs one call, a
    scene with its directory but without the image subdirectory costs
    two, and the annotation file is looked for only after both
    directories are found. *)
Theorem scene_present_short_circuit (fs : filesystem) (root scene : string) :
  (~ dir_exists fs (path_join root [scene]) ->
   scene_present fs root scene = (Ok false, [Isdir (path_join root [scene])])) /\
  (dir_exists fs (path_join root [scene]) ->
   ~ dir_exists fs (path_join root [scene; images_dir]) ->
   scene_present fs root scene
   = (Ok false, [Isdir (path_join root [scene]);
                 Isdir (path_join root [scene; images_dir])])) /\
  (dir_exists fs (path_join root [scene]) ->
   dir_exists fs (path_join root [scene; images_dir]) ->
   exists b,
     scene_present fs root scene = (Ok b, scene_probes root scene) /\
     (b = true <-> file_exists fs (path_join root [scene; annotation_filename]))).
Proof.
  unfold scene_present, scene_probes.
  destruct (isdir_spec fs (path_join root [scene])) as (b1 & -> & H1).
  destruct (isdir_spec fs (path_join root [scene; images_dir])) as (b2 & E2 & H2).
  destruct (isfile_spec fs (path_join root [scene; annotation_filename]))
    as (b3 & E3 & H3).
  split; [|split].
  - intros Hn. destruct b1; [exfalso; apply Hn, H1; reflexivity|]. reflexivity.
  - intros Hd Hn. apply H1 in Hd. subst b1. rewrite bind_ok, E2.
    destruct b2; [exfalso; apply Hn, H2; reflexivity|]. reflexivity.
  - intros Hd Hi. apply H1 in Hd. apply H2 in Hi. subst b1 b2.
    rewrite bind_ok, E2, bind_ok, E3. exists b3. split; [reflexivity|exact H3].
Qed.

Lemma scene_present_short_circuit_witness :
  scene_present Sample.disk "/data" "Home_009_9"
  = (Ok false, [Isdir (path_join "/data" ["Home_009_9"])]) /\
  exists b,
    scene_present Sample.disk "/data" "Home_001_1"
    = (Ok b, scene_probes "/data" "Home_001_1") /\
    (b = true <->
     file_exists Sample.disk (path_join "/data" ["Home_001_1"; annotation_filename])).
Proof.
  split.
  - apply (proj1 (scene_present_short_circuit Sample.disk "/data" "Home_009_9")).
    intros [es H]. discriminate H.
  - apply (proj2 (proj2 (scene_present_short_circuit Sample.disk "/data"
                           "Home_001_1"))); eexists; reflexivity.
Defined.

Lemma scene_present_intact (fs : filesystem) (root scene : string) :
  scene_intact fs root scene ->
  scene_present fs root scene = (Ok true, scene_probes root scene).
Proof.
  intros (Hd & Hi & Hf). unfold scene_present, scene_probes.
  destruct (isdir_spec fs (path_join root [scene])) as (b1 & -> & H1).
  destruct (isdir_spec fs (path_join root [scene; images_dir])) as (b2 & -> & H2).
  destruct (isfile_spec fs (path_join root [scene; annotation_filename]))
    as (b3 & -> & H3).
  apply H1 in Hd. apply H2 in Hi. apply H3 in Hf. subst. reflexivity.
Qed.

Lemma scene_present_log_prefix (fs : filesystem) (root scene : string) :
  exists rest,
    scene_probes root scene = log (scene_present fs root scene) ++ rest.
Proof.
  unfold scene_present, scene_probes.
  destruct (isdir_spec fs (path_join root [scene])) as (b1 & -> & _).
  destruct (isdir_spec fs (path_join root [scene; images_dir])) as (b2 & E2 & _).
  destruct (isfile_spec fs (path_join root [scene; annotation_filename]))
    as (b3 & E3 & _).
  rewrite bind_ok. destruct b1; [|eexists; reflexivity].
  rewrite E2, bind_ok. destruct b2; [|eexists; reflexivity].
  rewrite E3. exists []. reflexivity.
Qed.

Lemma check_integrity_intact_log (fs : filesystem) (root : string)
      (scenes : list string) :
  Forall (scene_intact fs root) scenes ->
  check_integrity fs root scenes
  = (Ok true, flat_map (scene_probes root) scenes).
Proof.
  induction 1 as [|s rest Hs _ IH]; [reflexivity|].
  rewrite (check_integrity_cons fs root s rest Hs), IH.
  rewrite (scene_present_intact fs root s Hs). reflexivity.
Qed.

Lemma probe_not_listdir (root scene path : string) :
  ~ In (Listdir path) (scene_probes root scene).
Proof. cbn. intros [H|[H|[H|[]]]]; discriminate H. Qed.

Lemma check_integrity_no_listdir (fs : filesystem) (root : string)
      (scenes : list string) (path : string) :
  ~ In (Listdir path) (log (check_integrity fs root scenes)).
Proof.
  induction scenes as [|s rest IH]; [intros []|].
  destruct (scene_intact_dec fs root s) as [Hs|Hs].
  - rewrite (check_integrity_cons fs root s rest Hs). cbn [log snd].
    rewrite (scene_present_intact fs root s Hs). cbn [log snd].
    intros Hin. apply in_app_or in Hin as [Hin|Hin]; [|exact (IH Hin)].
    exact (probe_not_listdir root s path Hin).
  - rewrite (check_integrity_fail fs root s rest Hs). cbn [log snd].
    destruct (scene_present_log_prefix fs root s) as (r & Hp).
    intros Hin. apply (probe_not_listdir root s path).
    rewrite Hp. apply in_or_app. now left.
Qed.

(** X10. The integrity check makes its calls scene by scene in the order
    of the list, at most three per scene: what it has called is always a
    prefix of the three probes of every scene in order, and is all of
    them, with answer true, when every scene is intact. *)
Theorem check_integrity_calls (fs : filesystem) (root : string)
        (scenes : list string) :
  (exists rest,
     flat_map (scene_probes root) scenes
     = log (check_integrity fs root scenes) ++ rest) /\
  (Forall (scene_intact fs root) scenes ->
   check_integrity fs root scenes
   = (Ok true, flat_map (scene_probes root) scenes)).
Proof.
  split.
  - induction scenes as [|s rest IH]; [exists []; reflexivity|].
    cbn [flat_map].
    destruct (scene_intact_dec fs root s) as [Hs|Hs].
    + rewrite (check_integrity_cons fs root s rest Hs). cbn [log snd].
      rewrite (scene_present_intact fs root s Hs). cbn [log snd].
      destruct IH as (r & ->). exists r. now rewrite app_assoc.
    + rewrite (check_integrity_fail fs root s rest Hs). cbn [log snd].
      destruct (scene_present_log_prefix fs root s) as (r & ->).
      exists (r ++ flat_map (scene_probes root) rest). now rewrite app_assoc.
  - induction 1 as [|s rest Hs _ IH]; [reflexivity|].
    rewrite (check_integrity_cons fs root s rest Hs), IH.
    rewrite (scene_present_intact fs root s Hs). reflexivity.
Qed.

Lemma check_integrity_calls_witness :
  check_integrity Sample.disk "/data" ["Home_001_1"]
  = (Ok true, flat_map (scene_probes "/data") ["Home_001_1"]).
Proof.
  apply (proj2 (check_integrity_calls Sample.disk "/data" ["Home_001_1"])).
  repeat constructor; eexists; reflexivity.
Defined.

Lemma list_images_log (fs : filesystem) (root : string) (scenes : list string) :
  Forall (fun s => dir_exists fs (path_join root [s; images_dir])) scenes ->
  forall acc,
    log (list_images fs root scenes acc) = map (scene_listing root) scenes.
Proof.
  induction 1 as [|s rest [es Hs] _ IH]; intros acc; [reflexivity|].
  cbn [list_images map]. rewrite (listdir_dir fs _ _ Hs), bind_ok.
  cbn [log snd app]. now rewrite IH.
Qed.

(** X12. Construction lists the image directories only after the whole
    scene list has passed the check: on success its calls are the three
    probes of every scene followed by one listing per scene, in the order
    of the list; when a scene fails the check, no directory is listed. *)
Theorem init_calls (fs : filesystem) (root : string) (train : bool)
        (t : option (ndarray -> IO ndarray))
        (tt : option (list box -> IO (list box)))
        (sl : option (list string)) (cls : bool) :
  (Forall (scene_intact fs root) (resolve_scene_list train sl) ->
   log (init fs root train t tt sl cls)
   = flat_map (scene_probes root) (resolve_scene_list train sl)
       ++ map (scene_listing root) (resolve_scene_list train sl)) /\
  (~ Forall (scene_intact fs root) (resolve_scene_list train sl) ->
   log (init fs root train t tt sl cls)
   = log (check_integrity fs root (resolve_scene_list train sl)) /\
   forall path, ~ In (Listdir path) (log (init fs root train t tt sl cls))).
Proof.
  split.
  - intros Hall. rewrite init_unfold.
    rewrite (check_integrity_intact_log fs root _ Hall), bind_ok.
    cbn [negb log snd].
    pose proof (list_images_log fs root _ (scene_intact_images _ _ _ Hall) [])
      as Hl.
    destruct (list_images fs root (resolve_scene_list train sl) [])
      as [[names|e] l]; cbn [log snd] in Hl; subst l; cbn;
      now rewrite ?app_nil_r.
  - intros Hn.
    assert (E : log (init fs root train t tt sl cls)
                = log (check_integrity fs root (resolve_scene_list train sl))).
    { rewrite init_unfold.
      destruct (check_integrity_spec fs root (resolve_scene_list train sl))
        as (b & Hv & Hb).
      rewrite (io_eta (check_integrity _ _ _)), Hv, bind_ok.
      destruct b; [exfalso; apply Hn, Hb; reflexivity|].
      cbn. now rewrite app_nil_r. }
    split; [exact E|]. intros path Hin. rewrite E in Hin.
    exact (check_integrity_no_listdir fs root _ path Hin).
Qed.

Lemma init_calls_witness :
  log (init Sample.disk "/data" true None None (Some ["Home_001_1"]) false)
  = flat_map (scene_probes "/data") ["Home_001_1"]
      ++ map (scene_listing "/data") ["Home_001_1"] /\
  forall path,
    ~ In (Listdir path)
         (log (init Sample.disk "/data" true None None
                    (Some ["Home_009_9"; "Home_001_1"]) false)).
Proof.
  split.
  - apply (proj1 (init_calls Sample.disk "/data" true None None
                    (Some ["Home_001_1"]) false)).
    repeat constructor; eexists; reflexivity.
  - apply (proj2 (init_calls Sample.disk "/data" true None None
                    (Some ["Home_009_9"; "Home_001_1"]) false)).
    intros H. apply Forall_inv in H. destruct H as ([es Hd] & _).
    discriminate Hd.
Defined.

(** X13. When the caller supplies a scene list the train flag has no
    effect: the two constructions make the same calls, fail alike, and
    give adapters with the same scene list and index, on which every item
    access is the same. *)
Theorem init_train_ignored (fs : filesystem) (root : string)
        (t : option (ndarray -> IO ndarray))
        (tt : option (list box -> IO (list box)))
        (l : list string) (cls : bool) :
  log (init fs root true t tt (Some l) cls)
  = log (init fs root false t tt (Some l) cls) /\
  (forall e, value (init fs root true t tt (Some l) cls) = Raise e <->
             value (init fs root false t tt (Some l) cls) = Raise e) /\
  (forall self1 self2,
     value (init fs root true t tt (Some l) cls) = Ok self1 ->
     value (init fs root false t tt (Some l) cls) = Ok self2 ->
     scene_list self1 = scene_list self2 /\
     image_names self1 = image_names self2 /\
     len self1 = len self2 /\
     forall index, getitem fs self1 index = getitem fs self2 index).
Proof.
  rewrite !init_unfold. cbn [resolve_scene_list].
  destruct (check_integrity fs root l) as [[[|]|e] l0]; cbn [bind negb raise].
  - destruct (list_images fs root l []) as [[names|e] l1]; cbn [bind ret].
    + split; [reflexivity|]. split; [split; discriminate|].
      cbn [value fst]. intros self1 self2 [= <-] [= <-].
      repeat split; reflexivity.
    + split; [reflexivity|]. split; [tauto|]. discriminate.
  - split; [reflexivity|]. split; [tauto|]. discriminate.
  - split; [reflexivity|]. split; [tauto|]. discriminate.
Qed.

Lemma init_train_ignored_witness :
  scene_list (Sample.adapter false)
  = scene_list (mk_AVD "/data" None None false false ["Home_001_1"]
                       [Sample.name_a; Sample.name_b]) /\
  image_names (Sample.adapter false) = [Sample.name_a; Sample.name_b] /\
  len (Sample.adapter false) = 2 /\
  forall index,
    getitem Sample.disk (Sample.adapter false) index
    = getitem Sample.disk
              (mk_AVD "/data" None None false false ["Home_001_1"]
                      [Sample.name_a; Sample.name_b]) index.
Proof.
  destruct (init_train_ignored Sample.disk "/data" None None ["Home_001_1"] false)
    as (_ & _ & H).
  apply (H (Sample.adapter false)
           (mk_AVD "/data" None None false false ["Home_001_1"]
                   [Sample.name_a; Sample.name_b])); reflexivity.
Defined.

(** ** The root and the paths *)

Lemma string_app_assoc (a b c : string) :
  ((a ++ b) ++ c)%string = (a ++ b ++ c)%string.
Proof. induction a as [|x a IH]; cbn; [reflexivity | now rewrite IH]. Qed.

Lemma get_length_app_sep (r : string) :
  String.get (String.length r) (r ++ "/")%string = Some "/"%char.
Proof. induction r as [|x r IH]; [reflexivity | exact IH]. Qed.

Lemma length_app_sep (r : string) :
  String.length (r ++ "/")%string = S (String.length r).
Proof. induction r as [|x r IH]; cbn; [reflexivity | now rewrite IH]. Qed.

Lemma ends_with_sep_app (r : string) : ends_with_sep (r ++ "/")%string = true.
Proof.
  unfold ends_with_sep. rewrite length_app_sep. cbn [Nat.sub].
  rewrite Nat.sub_0_r, get_length_app_sep. reflexivity.
Qed.

Lemma join_step_trailing_sep (root s : string) :
  root <> "" -> ends_with_sep root = false ->
  join_step (root ++ "/")%string s = join_step root s.
Proof.
  intros Hne Hsep. unfold join_step.
  destruct (String.prefix "/" s); [reflexivity|].
  rewrite ends_with_sep_app, orb_true_r, Hsep.
  destruct (String.eqb_spec root ""); [contradiction|].
  cbn [orb]. apply string_app_assoc.
Qed.

Lemma join_step_absolute (root root' s : string) :
  String.prefix "/" s = true -> join_step root s = join_step root' s.
Proof. intros H. unfold join_step. now rewrite H. Qed.

(** Two roots that give the same path for every scene of a list give the
    same check and the same enumeration. *)
Lemma construction_roots_agree (fs : filesystem) (root root' : string)
      (scenes : list string) :
  Forall (fun s => join_step root s = join_step root' s) scenes ->
  check_integrity fs root scenes = check_integrity fs root' scenes /\
  forall acc, list_images fs root scenes acc = list_images fs root' scenes acc.
Proof.
  induction 1 as [|s rest Hs _ [IHc IHl]]; [split; reflexivity|].
  split.
  - cbn [check_integrity]. unfold scene_present, path_join.
    cbn [fold_left]. now rewrite Hs, IHc.
  - intros acc. cbn [list_images]. unfold path_join.
    cbn [fold_left]. rewrite Hs.
    destruct (listdir fs _) as [[es|e] l0]; [|reflexivity].
    rewrite !bind_ok. now rewrite IHl.
Qed.

Lemma init_roots_agree (fs : filesystem) (r r' : string) (train : bool)
      (t : option (ndarray -> IO ndarray))
      (tt : option (list box -> IO (list box)))
      (sl : option (list string)) (cls : bool) :
  Forall (fun s => join_step r s = join_step r' s)
         (resolve_scene_list train sl) ->
  log (init fs r train t tt sl cls) = log (init fs r' train t tt sl cls) /\
  (forall e, value (init fs r train t tt sl cls) = Raise e <->
             value (init fs r' train t tt sl cls) = Raise e) /\
  (forall self self',
     value (init fs r train t tt sl cls) = Ok self ->
     value (init fs r' train t tt sl cls) = Ok self' ->
     image_names self = image_names self' /\
     root self = r /\ root self' = r' /\
     transform self = transform self' /\
     target_transform self = target_transform self' /\
     classification self = classification self').
Proof.
  intros H. destruct (construction_roots_agree fs r r' _ H) as [Hc Hl].
  rewrite !init_unfold, Hc, (Hl []).
  destruct (check_integrity fs r' _) as [[[|]|e] l0]; cbn [bind negb raise].
  - destruct (list_images fs r' _ []) as [[names|e] l1]; cbn [bind ret].
    + split; [reflexivity|]. split; [split; discriminate|].
      cbn [value fst]. intros self self' [= <-] [= <-]. repeat split.
    + split; [reflexivity|]. split; [tauto|]. discriminate.
  - split; [reflexivity|]. split; [tauto|]. discriminate.
  - split; [reflexivity|]. split; [tauto|]. discriminate.
Qed.

Lemma getitem_roots_agree (fs : filesystem) (self self' : AVD) (index : Z) :
  image_names self = image_names self' ->
  transform self = transform self' ->
  target_transform self = target_transform self' ->
  classification self = classification self' ->
  (forall s, join_step (root self) s = join_step (root self') s) ->
  getitem fs self index = getitem fs self' index.
Proof.
  intros Hn Ht Htt Hc Hr.
  unfold getitem, read_item, apply_transforms, finish_item.
  rewrite Hn, Ht, Htt, Hc.
  destruct (list_getitem (image_names self') index) as [name|e];
    [|reflexivity].
  rewrite !bind_lift_ok.
  destruct (scene_name_of name) as [scene|e]; [|reflexivity].
  rewrite !bind_lift_ok. unfold path_join. cbn [fold_left].
  now rewrite (Hr scene).
Qed.

(** X14. A separator at the end of the root changes nothing: for a root
    that is not empty and does not already end with "/", construction on
    the root followed by "/" makes the same calls, fails alike, and gives
    the same index, and every item access on the two adapters is the
    same. *)
Theorem init_root_trailing_separator (fs : filesystem) (root : string)
        (train : bool) (t : option (ndarray -> IO ndarray))
        (tt : option (list box -> IO (list box)))
        (sl : option (list string)) (cls : bool) :
  root <> "" -> ends_with_sep root = false ->
  log (init fs (root ++ "/")%string train t tt sl cls)
  = log (init fs root train t tt sl cls) /\
  (forall e, value (init fs (root ++ "/")%string train t tt sl cls) = Raise e <->
             value (init fs root train t tt sl cls) = Raise e) /\
  (forall self self',
     value (init fs (root ++ "/")%string train t tt sl cls) = Ok self ->
     value (init fs root train t tt sl cls) = Ok self' ->
     image_names self = image_names self' /\
     forall index, getitem fs self index = getitem fs self' index).
Proof.
  intros Hne Hsep.
  destruct (init_roots_agree fs (root ++ "/")%string root train t tt sl cls)
    as (Hlog & Herr & Hok).
  { apply Forall_forall. intros s _. now apply join_step_trailing_sep. }
  split; [exact Hlog|]. split; [exact Herr|].
  intros self self' H1 H2.
  destruct (Hok self self' H1 H2) as (Hn & Hr & Hr' & Ht & Htt & Hc).
  split; [exact Hn|]. intros index.
  apply getitem_roots_agree; try assumption.
  intros s. rewrite Hr, Hr'. now apply join_step_trailing_sep.
Qed.

Lemma init_root_trailing_separator_witness :
  log (init Sample.disk "/data/" true None None (Some ["Home_001_1"]) false)
  = log (init Sample.disk "/data" true None None (Some ["Home_001_1"]) false) /\
  forall index,
    getitem Sample.disk
            (mk_AVD "/data/" None None false true ["Home_001_1"]
                    [Sample.name_a; Sample.name_b]) index
    = getitem Sample.disk (Sample.adapter false) index.
Proof.
  destruct (init_root_trailing_separator Sample.disk "/data" true None None
              (Some ["Home_001_1"]) false) as (Hlog & _ & Hok);
    [discriminate | reflexivity |].
  split; [exact Hlog|].
  apply (Hok (mk_AVD "/data/" None None false true ["Home_001_1"]
                     [Sample.name_a; Sample.name_b])
             (Sample.adapter false)); reflexivity.
Defined.

(** X15. A scene name that begins with "/" replaces the root in every
    path construction builds: with a scene list of such names the check
    and the enumeration do not depend on the root at all. *)
Theorem init_absolute_scenes_ignore_root (fs : filesystem) (root root' : string)
        (train : bool) (t : option (ndarray -> IO ndarray))
        (tt : option (list box -> IO (list box)))
        (l : list string) (cls : bool) :
  Forall (fun s => String.prefix "/" s = true) l ->
  log (init fs root train t tt (Some l) cls)
  = log (init fs root' train t tt (Some l) cls) /\
  (forall e, value (init fs root train t tt (Some l) cls) = Raise e <->
             value (init fs root' train t tt (Some l) cls) = Raise e) /\
  (forall self self',
     value (init fs root train t tt (Some l) cls) = Ok self ->
     value (init fs root' train t tt (Some l) cls) = Ok self' ->
     image_names self = image_names self').
Proof.
  intros Habs.
  destruct (init_roots_agree fs root root' train t tt (Some l) cls)
    as (Hlog & Herr & Hok).
  { cbn [resolve_scene_list]. revert Habs. apply Forall_impl.
    intros s Hs. now apply join_step_absolute. }
  split; [exact Hlog|]. split; [exact Herr|].
  intros self self' H1 H2. now destruct (Hok self self' H1 H2).
Qed.

Lemma init_absolute_scenes_ignore_root_witness :
  log (init Sample.disk "/elsewhere" true None None
            (Some ["/data/Home_001_1"]) false)
  = log (init Sample.disk "/data" true None None
              (Some ["/data/Home_001_1"]) false) /\
  image_names (Sample.adapter false) = image_names (Sample.adapter true).
Proof.
  destruct (init_absolute_scenes_ignore_root Sample.disk "/elsewhere" "/data"
              true None None ["/data/Home_001_1"] false) as (Hlog & _ & Hok).
  { repeat constructor. }
  split; [exact Hlog|].
  apply (Hok (mk_AVD "/elsewhere" None None false true ["/data/Home_001_1"]
                     [Sample.name_a; Sample.name_b])
             (mk_AVD "/data" None None false true ["/data/Home_001_1"]
                     [Sample.name_a; Sample.name_b])); reflexivity.
Defined.

(** ** What the derived scene tells about a name *)

(** X16. Two names of at least five characters derive the same scene
    exactly when they agree on their characters 1 to 4 and on whether
    their character 0 is '0': the derivation keeps this much of a name
    and nothing more. *)
Theorem scene_name_of_same_scene (a b : string) :
  5 <= String.length a ->
  5 <= String.length b ->
  (scene_name_of a = scene_name_of b <->
   (forall i, 1 <= i <= 4 -> String.get i a = String.get i b) /\
   (String.get 0 a = Some "0"%char <-> String.get 0 b = Some "0"%char)).
Proof.
  intros Ha Hb.
  destruct (length_five_inv a Ha) as (a0 & a1 & a2 & a3 & a4 & ra & ->).
  destruct (length_five_inv b Hb) as (b0 & b1 & b2 & b3 & b4 & rb & ->).
  rewrite !scene_name_of_cons. cbn [String.get].
  assert (Hget0 : forall c : ascii,
             Some c = Some "0"%char <-> Ascii.eqb c "0" = true).
  { intros c. rewrite Ascii.eqb_eq. split; [now intros [= ->] | now intros ->]. }
  rewrite !Hget0. split.
  - intros E.
    destruct (Ascii.eqb a0 "0"), (Ascii.eqb b0 "0"); cbn in E;
      try discriminate E; injection E as -> -> -> ->.
    + split; [|tauto].
      intros [|[|[|[|[|i]]]]] Hi; try lia; reflexivity.
    + split; [|tauto].
      intros [|[|[|[|[|i]]]]] Hi; try lia; reflexivity.
  - intros [Hchars Hzero].
    pose proof (Hchars 1 ltac:(lia)) as E1. pose proof (Hchars 2 ltac:(lia)) as E2.
    pose proof (Hchars 3 ltac:(lia)) as E3. pose proof (Hchars 4 ltac:(lia)) as E4.
    cbn in E1, E2, E3, E4.
    injection E1 as ->. injection E2 as ->. injection E3 as ->. injection E4 as ->.
    assert (Eb : Ascii.eqb a0 "0" = Ascii.eqb b0 "0").
    { destruct (Ascii.eqb a0 "0"), (Ascii.eqb b0 "0"); try reflexivity.
      - symmetry. now apply Hzero.
      - now apply Hzero. }
    now rewrite Eb.
Qed.

Lemma scene_name_of_same_scene_witness :
  scene_name_of "1001100.jpg" = scene_name_of "2001100.png" <->
  (forall i, 1 <= i <= 4 ->
             String.get i "1001100.jpg" = String.get i "2001100.png") /\
  (String.get 0 "1001100.jpg" = Some "0"%char <->
   String.get 0 "2001100.png" = Some "0"%char).
Proof.
  apply (scene_name_of_same_scene "1001100.jpg" "2001100.png");
    simpl; lia.
Defined.
